(** * RequestItem: the request card of the request list

    A shallow embedding of [src/components/RequestList/RequestItem/index.tsx]:
    the data the card reads, what it renders (status badge, season badges,
    action buttons, the loading placeholder and the error card) and what its
    click handlers do (HTTP calls, revalidations, toasts, local state).

    Purely presentational output (images, links, relative dates) is left
    out of the views; every conditional that decides which badge or button
    is rendered is kept as written. *)

From Stdlib Require Import ZArith List String Bool Lia.
From Stdlib Require Import DecimalString Ascii.
From Stdlib Require DecimalZ DecimalPos.
From Stdlib Require Import Sorted.
Import ListNotations.

Local Open Scope string_scope.
Local Open Scope Z_scope.

(* ===================================================================== *)
(** ** Data model *)
(* ===================================================================== *)

(** The entity and model types ([MediaRequest], [Media], [MovieDetails],
    [TvDetails], ...) are imported from the server tree; each record below
    lists the fields this component reads.  Ids and season numbers are
    integers. *)

(** Modelled from the spec: the enum [MediaRequestStatus] is declared in
    [server/constants/media], which is not among the sources; the spec
    gives a request the statuses pending, approved and declined. *)
Module MediaRequestStatus.
Inductive t : Type := PENDING | APPROVED | DECLINED.

Definition eq_dec (a b : t) : {a = b} + {a <> b}.
Proof. decide equality. Defined.
End MediaRequestStatus.

(** Modelled from the spec: the enum [MediaStatus] is declared in
    [server/constants/media] as well; the spec names the per-quality
    statuses unknown, available, processing and partially-available.  The
    card only ever compares a media status with [UNKNOWN]. *)
Module MediaStatus.
Inductive t : Type := UNKNOWN | PROCESSING | PARTIALLY_AVAILABLE | AVAILABLE.

Definition eq_dec (a b : t) : {a = b} + {a <> b}.
Proof. decide equality. Defined.
End MediaStatus.

(** [request.type] is ['movie' | 'tv']. *)
Module MediaType.
Inductive t : Type := movie | tv.

Definition eq_dec (a b : t) : {a = b} + {a <> b}.
Proof. decide equality. Defined.

(** The string the value has inside a template literal. *)
Definition to_string (m : t) : string :=
  match m with movie => "movie" | tv => "tv" end.
End MediaType.

(** The members of [Permission] (declared with the [useUser] hook) that
    the card passes to [hasPermission]. *)
Module Permission.
Inductive t : Type := MANAGE_REQUESTS | REQUEST_ADVANCED | REQUEST_VIEW.
End Permission.

Module User.
Record t : Type := mk
  { id : Z;
    displayName : string;
    avatar : string }.
End User.

(** Entries of a download-status list are only counted by the card. *)
Inductive DownloadingItem : Type := downloadingItem.

Module Media.
Record t : Type := mk
  { id : Z;
    tmdbId : Z;
    status : MediaStatus.t;
    status4k : MediaStatus.t;
    downloadStatus : option (list DownloadingItem);
    downloadStatus4k : option (list DownloadingItem);
    mediaUrl : option string;
    mediaUrl4k : option string }.
End Media.

Module SeasonRequest.
Record t : Type := mk
  { id : Z;
    seasonNumber : Z }.
End SeasonRequest.

Module MediaRequest.
Record t : Type := mk
  { id : Z;
    type : MediaType.t;
    status : MediaRequestStatus.t;
    is4k : bool;
    media : Media.t;
    seasons : list SeasonRequest.t;
    requestedBy : User.t;
    modifiedBy : option User.t }.
End MediaRequest.

Module MovieDetails.
Record t : Type := mk
  { title : string;
    releaseDate : option string;
    posterPath : option string;
    backdropPath : option string }.
End MovieDetails.

Module Season.
Record t : Type := mk
  { seasonNumber : Z }.
End Season.

Module TvDetails.
Record t : Type := mk
  { name : string;
    firstAirDate : option string;
    posterPath : option string;
    backdropPath : option string;
    seasons : list Season.t }.
End TvDetails.

(** [MovieDetails | TvDetails]: the title metadata fetched for the card. *)
Inductive TitleDetails : Type :=
| Movie (m : MovieDetails.t)
| Tv (t : TvDetails.t).

(** [isMovie] is the type guard [(movie as MovieDetails).title !== undefined]:
    only a [MovieDetails] has a [title] field. *)
Definition isMovie (movie : TitleDetails) : bool :=
  match movie with
  | Movie _ => true
  | Tv _ => false
  end.

(** The default (English) texts of [defineMessages] and of the global
    messages the card uses. *)
Module messages.
Definition failedretry : string :=
  "Something went wrong while retrying the request.".
Definition mediaerror : string :=
  "The associated title for this request is no longer available.".

(** ['{seasonCount, plural, one {Season} other {Seasons}}'] under the
    English plural rule: [one] is chosen for 1 only. *)
Definition seasons (seasonCount : nat) : string :=
  if Nat.eqb seasonCount 1 then "Season" else "Seasons".
End messages.

(* ===================================================================== *)
(** ** What a render reads *)
(* ===================================================================== *)

(** [RequestItemProps]; [revalidateList] is a callback and appears as an
    effect of the handlers below. *)
Record Props : Type := mkProps
  { request : MediaRequest.t }.

(** What the hooks [useUser] and [useSWR] (for the title) hand to a render.
    [user] is [undefined] while nobody is signed in; [hasPermission] is the
    hook's own check.  [title] is the [data] of the title fetch and [error]
    tells whether it reports an error (the component only tests it). *)
Record Env : Type := mkEnv
  { user : option User.t;
    hasPermission : Permission.t -> bool;
    title : option TitleDetails;
    error : bool }.

(** A toast as passed to [addToast]. *)
Inductive Appearance : Type := appearance_error.

Record Toast : Type := mkToast
  { toast_message : string;
    autoDismiss : bool;
    appearance : Appearance }.

Inductive Method : Type := POST | DELETE.

Record HttpCall : Type := mkCall
  { method : Method;
    url : string }.

(** What leaves the card, in the order it happens. *)
Inductive Effect : Type :=
| Http (c : HttpCall)         (* an axios call is issued *)
| RevalidateRecord            (* SWR revalidates [/api/v1/request/:id] *)
| RevalidateList              (* the [revalidateList] prop is called *)
| Notify (t : Toast).         (* [addToast] *)

(** The state the card keeps between renders: the two [useState] cells,
    the SWR data of the request record ([requestData]) and the trace of
    effects issued so far (oldest first). *)
Record State : Type := mkState
  { isRetrying : bool;
    showEditModal : bool;
    requestData : option MediaRequest.t;
    trace : list Effect }.

(** [useState(false)] twice, and [fallbackData: request] for the record. *)
Definition initial (p : Props) : State :=
  {| isRetrying := false;
     showEditModal := false;
     requestData := Some (request p);
     trace := [] |}.

(* ===================================================================== *)
(** ** Views *)
(* ===================================================================== *)

(** The controls of the card's action column. *)
Inductive ActionButton : Type :=
| BtnRetry (disabled : bool)
| BtnDelete
| BtnApprove
| BtnDecline
| BtnEdit
| BtnCancel.

(** The status field holds one of three badges. *)
Inductive StatusField : Type :=
| DeclinedBadge
| FailedBadge (href : string)
| StatusBadge (status : MediaStatus.t) (inProgress : bool) (is4k : bool)
              (tmdbId : Z) (mediaType : MediaType.t) (plexUrl : option string).

Inductive SeasonBadges : Type :=
| AllBadge
| NumberBadges (numbers : list Z).

Record SeasonField : Type := mkSeasonField
  { seasonCount : nat;
    seasonLabel : string;
    seasonBadges : SeasonBadges }.

Inductive ErrorButton : Type := BtnDeleteMedia.

Record ErrorCard : Type := mkErrorCard
  { errorMessage : string;
    errorButtons : list ErrorButton }.

Record Card : Type := mkCard
  { modalShown : bool;
    seasonField : option SeasonField;
    statusField : StatusField;
    actions : list ActionButton }.

Inductive View : Type :=
| Placeholder
| ErrorView (e : ErrorCard)
| CardView (c : Card).

(* ===================================================================== *)
(** ** Rendering *)
(* ===================================================================== *)

(** A number inside a template literal. *)
Definition num (n : Z) : string := NilZero.string_of_int (Z.to_int n).

(** [`${mediaId}`] for a [number | undefined]. *)
Definition num_opt (n : option Z) : string :=
  match n with
  | Some k => num k
  | None => "undefined"
  end.

(** Truthiness of a [number | undefined] operand of [&&]. *)
Definition truthy (n : option Z) : bool :=
  match n with
  | Some k => negb (k =? 0)
  | None => false
  end.

(** [requestData.media[requestData.is4k ? 'status4k' : 'status']] *)
Definition selectedStatus (rd : MediaRequest.t) : MediaStatus.t :=
  if MediaRequest.is4k rd
  then Media.status4k (MediaRequest.media rd)
  else Media.status (MediaRequest.media rd).

Definition selectedDownloadStatus (rd : MediaRequest.t)
  : option (list DownloadingItem) :=
  if MediaRequest.is4k rd
  then Media.downloadStatus4k (MediaRequest.media rd)
  else Media.downloadStatus (MediaRequest.media rd).

Definition selectedMediaUrl (rd : MediaRequest.t) : option string :=
  if MediaRequest.is4k rd
  then Media.mediaUrl4k (MediaRequest.media rd)
  else Media.mediaUrl (MediaRequest.media rd).

(** [requestData.requestedBy.id === user?.id] *)
Definition isRequester (env : Env) (rd : MediaRequest.t) : bool :=
  match user env with
  | Some u => User.id (MediaRequest.requestedBy rd) =? User.id u
  | None => false
  end.

Definition isStatus (rd : MediaRequest.t) (s : MediaRequestStatus.t) : bool :=
  if MediaRequestStatus.eq_dec (MediaRequest.status rd) s then true else false.

Definition isUnknown (m : MediaStatus.t) : bool :=
  if MediaStatus.eq_dec m MediaStatus.UNKNOWN then true else false.

Definition isTv (rd : MediaRequest.t) : bool :=
  if MediaType.eq_dec (MediaRequest.type rd) MediaType.tv then true else false.

(** [cond && (<jsx/>)] inside a list of children. *)
Definition when {A : Type} (cond : bool) (children : list A) : list A :=
  if cond then children else [].

(** The error card, [RequestItemError]. *)
Definition RequestItemError (env : Env) (mediaId : option Z) : ErrorCard :=
  {| errorMessage := messages.mediaerror;
     errorButtons :=
       when (hasPermission env Permission.MANAGE_REQUESTS && truthy mediaId)
            [BtnDeleteMedia] |}.

(** The season field of the card (rendered for a tv title with requested
    seasons). *)
Definition nonSpecials (t : TvDetails.t) : list Season.t :=
  List.filter (fun season => negb (Season.seasonNumber season =? 0))
         (TvDetails.seasons t).

Definition renderSeasons (t : TitleDetails) (p : Props) : option SeasonField :=
  match t with
  | Movie _ => None
  | Tv tv =>
      let requested := MediaRequest.seasons (request p) in
      if Nat.ltb 0 (List.length requested) then
        let all := Nat.eqb (List.length (nonSpecials tv)) (List.length requested) in
        let count := if all then 0%nat else List.length requested in
        Some {| seasonCount := count;
                seasonLabel := messages.seasons count;
                seasonBadges :=
                  if all then AllBadge
                  else NumberBadges (List.map SeasonRequest.seasonNumber requested) |}
      else None
  end.

(** The status field of the card. *)
Definition renderStatus (rd : MediaRequest.t) : StatusField :=
  if isStatus rd MediaRequestStatus.DECLINED then DeclinedBadge
  else if isUnknown (selectedStatus rd) then
    FailedBadge ("/" ++ MediaType.to_string (MediaRequest.type rd) ++ "/"
                 ++ num (Media.tmdbId (MediaRequest.media rd)) ++ "?manage=1")
  else
    StatusBadge (selectedStatus rd)
                (Nat.ltb 0 (List.length (match selectedDownloadStatus rd with
                                    | Some l => l
                                    | None => []
                                    end)))
                (MediaRequest.is4k rd)
                (Media.tmdbId (MediaRequest.media rd))
                (MediaRequest.type rd)
                (selectedMediaUrl rd).

(** The action column of the card: five conditional blocks, in order. *)
Definition renderActions (env : Env) (retrying : bool) (rd : MediaRequest.t)
  : list ActionButton :=
  let manage := hasPermission env Permission.MANAGE_REQUESTS in
  (when (isUnknown (selectedStatus rd)
        && negb (isStatus rd MediaRequestStatus.DECLINED)
        && manage)
       [BtnRetry retrying]
  ++ when (negb (isStatus rd MediaRequestStatus.PENDING) && manage)
          [BtnDelete]
  ++ when (isStatus rd MediaRequestStatus.PENDING && manage)
          [BtnApprove; BtnDecline]
  ++ when (isStatus rd MediaRequestStatus.PENDING
           && (manage
               || (isRequester env rd
                   && (isTv rd
                       || hasPermission env Permission.REQUEST_ADVANCED))))
          [BtnEdit]
  ++ when (isStatus rd MediaRequestStatus.PENDING
           && negb manage
           && isRequester env rd)
          [BtnCancel])%list.

(** [requestData?.media.id] *)
Definition mediaIdOf (s : State) : option Z :=
  option_map (fun rd => Media.id (MediaRequest.media rd)) (requestData s).

(** The component: placeholder while the title is neither loaded nor
    failed, the error card when the title or the record is missing, the
    card otherwise. *)
Definition RequestItem (p : Props) (env : Env) (s : State) : View :=
  match title env, error env with
  | None, false => Placeholder
  | _, _ =>
      match title env, requestData s with
      | Some t, Some rd =>
          CardView {| modalShown := showEditModal s;
                      seasonField := renderSeasons t p;
                      statusField := renderStatus rd;
                      actions := renderActions env (isRetrying s) rd |}
      | _, _ => ErrorView (RequestItemError env (mediaIdOf s))
      end
  end.

(* ===================================================================== *)
(** ** Handlers *)
(* ===================================================================== *)

(** What an axios call settles with.  The body of a response is read by
    [retryRequest] only, where the endpoint answers with the request. *)
Record AxiosResponse : Type := mkResponse
  { data : MediaRequest.t }.

Inductive AxiosError : Type := axiosError (message : string).

Inductive Outcome : Type :=
| Fulfilled (r : AxiosResponse)
| Rejected (e : AxiosError).

(** The synchronous steps a handler takes. *)
Inductive Action : Type :=
| SetRetrying (b : bool)
| SetShowEditModal (b : bool)
| Revalidate (d : option MediaRequest.t)   (* [revalidate(d)], SWR's bound mutate *)
| CallRevalidateList
| AddToast (t : Toast).

(** An [async] function: synchronous steps, [await]s on HTTP calls, and a
    promise that in the end fulfils ([Return]) or rejects ([Throw]). *)
Inductive Async : Type :=
| Return
| Throw (e : AxiosError)
| Do (a : Action) (k : Async)
| Await (c : HttpCall) (k : Outcome -> Async).

(** [await axios...(c)], then [k] on the response; a rejected call throws. *)
Definition await (c : HttpCall) (k : AxiosResponse -> Async) : Async :=
  Await c (fun o => match o with
                    | Fulfilled r => k r
                    | Rejected e => Throw e
                    end).

(** [p; q] *)
Fixpoint seq (p q : Async) : Async :=
  match p with
  | Return => q
  | Throw e => Throw e
  | Do a k => Do a (seq k q)
  | Await c k => Await c (fun o => seq (k o) q)
  end.

(** [try { p } catch (e) { h e }] *)
Fixpoint try_catch (p : Async) (h : AxiosError -> Async) : Async :=
  match p with
  | Return => Return
  | Throw e => h e
  | Do a k => Do a (try_catch k h)
  | Await c k => Await c (fun o => try_catch (k o) h)
  end.

(** [try { p } finally { f }]: [f] runs on both exits, and a pending
    exception is thrown again after it. *)
Fixpoint try_finally (p f : Async) : Async :=
  match p with
  | Return => f
  | Throw e => seq f (Throw e)
  | Do a k => Do a (try_finally k f)
  | Await c k => Await c (fun o => try_finally (k o) f)
  end.

(** A response object is truthy. *)
Definition response_truthy (response : AxiosResponse) : bool := true.

Inductive ModifyType : Type := approve | decline.

Definition ModifyType_to_string (type : ModifyType) : string :=
  match type with approve => "approve" | decline => "decline" end.

(** The calls of the handlers, with their template-literal URLs. *)
Definition modifyCall (p : Props) (type : ModifyType) : HttpCall :=
  {| method := POST;
     url := "/api/v1/request/" ++ num (MediaRequest.id (request p))
            ++ "/" ++ ModifyType_to_string type |}.

Definition deleteCall (p : Props) : HttpCall :=
  {| method := DELETE;
     url := "/api/v1/request/" ++ num (MediaRequest.id (request p)) |}.

Definition retryCall (p : Props) : HttpCall :=
  {| method := POST;
     url := "/api/v1/request/" ++ num (MediaRequest.id (request p)) ++ "/retry" |}.

Definition deleteMediaCall (mediaId : option Z) : HttpCall :=
  {| method := DELETE; url := "/api/v1/media/" ++ num_opt mediaId |}.

(** The toast [retryRequest] shows when its call fails. *)
Definition failedRetryToast : Toast :=
  {| toast_message := messages.failedretry;
     autoDismiss := true;
     appearance := appearance_error |}.

Definition modifyRequest (p : Props) (type : ModifyType) : Async :=
  await (modifyCall p type)
        (fun response =>
           if response_truthy response then Do (Revalidate None) Return
           else Return).

Definition deleteRequest (p : Props) : Async :=
  await (deleteCall p)
        (fun _ => Do CallRevalidateList Return).

Definition retryRequest (p : Props) : Async :=
  Do (SetRetrying true)
     (try_finally
        (try_catch
           (await (retryCall p)
                  (fun result => Do (Revalidate (Some (data result))) Return))
           (fun e => Do (AddToast failedRetryToast) Return))
        (Do (SetRetrying false) Return)).

(** [deleteRequest] of the error card. *)
Definition RequestItemError_deleteRequest (mediaId : option Z) : Async :=
  await (deleteMediaCall mediaId)
        (fun _ => Do CallRevalidateList Return).

(** The [onClick] of each control of the action column. *)
Definition onClick (p : Props) (b : ActionButton) : Async :=
  match b with
  | BtnRetry _ => retryRequest p
  | BtnDelete => deleteRequest p
  | BtnApprove => modifyRequest p approve
  | BtnDecline => modifyRequest p decline
  | BtnEdit => Do (SetShowEditModal true) Return
  | BtnCancel => deleteRequest p
  end.

(** *** Running a handler *)

Definition emits (es : list Effect) (s : State) : State :=
  {| isRetrying := isRetrying s;
     showEditModal := showEditModal s;
     requestData := requestData s;
     trace := (trace s ++ es)%list |}.

Definition perform (a : Action) (s : State) : State :=
  match a with
  | SetRetrying b =>
      {| isRetrying := b;
         showEditModal := showEditModal s;
         requestData := requestData s;
         trace := trace s |}
  | SetShowEditModal b =>
      {| isRetrying := isRetrying s;
         showEditModal := b;
         requestData := requestData s;
         trace := trace s |}
  | Revalidate d =>
      {| isRetrying := isRetrying s;
         showEditModal := showEditModal s;
         requestData := match d with
                        | Some r => Some r
                        | None => requestData s
                        end;
         trace := (trace s ++ [RevalidateRecord])%list |}
  | CallRevalidateList => emits [RevalidateList] s
  | AddToast t => emits [Notify t] s
  end.

Inductive Completion : Type :=
| Done
| Failed (e : AxiosError).

Inductive Progress : Type :=
| Settled (c : Completion)
| Suspended (c : HttpCall) (k : Outcome -> Async).

(** Runs a handler up to its next [await] (the call is issued there) or
    to its end. *)
Fixpoint exec (p : Async) (s : State) : State * Progress :=
  match p with
  | Return => (s, Settled Done)
  | Throw e => (s, Settled (Failed e))
  | Do a k => exec k (perform a s)
  | Await c k => (emits [Http c] s, Suspended c k)
  end.

(** Runs a handler to its end against a network that answers each call
    with [net c]. *)
Fixpoint run (net : HttpCall -> Outcome) (p : Async) (s : State)
  : State * Completion :=
  match p with
  | Return => (s, Done)
  | Throw e => (s, Failed e)
  | Do a k => run net k (perform a s)
  | Await c k => run net (k (net c)) (emits [Http c] s)
  end.

(* ===================================================================== *)
(** ** The card over time *)
(* ===================================================================== *)

Definition ActionButton_eq_dec (a b : ActionButton) : {a = b} + {a <> b}.
Proof. decide equality. apply Bool.bool_dec. Defined.

(** The [disabled] attribute a control is rendered with; only the retry
    button passes one. *)
Definition disabledOf (b : ActionButton) : bool :=
  match b with
  | BtnRetry d => d
  | _ => false
  end.

(** Whether the control is in the action column of the view. *)
Definition rendered (b : ActionButton) (v : View) : bool :=
  match v with
  | CardView c => if in_dec ActionButton_eq_dec b (actions c) then true else false
  | _ => false
  end.

(** A mounted card: its state, and the handlers suspended at an [await]
    together with the call each one waits for. *)
Record Live : Type := mkLive
  { now : State;
    inflight : list (HttpCall * (Outcome -> Async)) }.

Definition launch (prog : Async) (rest : list (HttpCall * (Outcome -> Async)))
                  (s : State) : Live :=
  match exec prog s with
  | (s', Settled _) => {| now := s'; inflight := rest |}
  | (s', Suspended c k) => {| now := s'; inflight := (rest ++ [(c, k)])%list |}
  end.

Inductive Event : Type :=
| Click (b : ActionButton)             (* the user clicks (and, for a confirm
                                          button, confirms) a control *)
| Settle (i : nat) (o : Outcome)       (* the [i]-th call in flight settles *)
| RecordArrives (rd : MediaRequest.t). (* SWR delivers fresh record data *)

(** One event.  [Button] (components/Common/Button) is not among the
    sources: [dispatches d] tells whether a [Button] rendered with
    [disabled = d] hands a click to its [onClick]. *)
Definition step (dispatches : bool -> bool) (p : Props) (env : Env)
                (l : Live) (ev : Event) : Live :=
  match ev with
  | Click b =>
      if rendered b (RequestItem p env (now l)) && dispatches (disabledOf b)
      then launch (onClick p b) (inflight l) (now l)
      else l
  | Settle i o =>
      match nth_error (inflight l) i with
      | Some (_, k) =>
          launch (k o) (firstn i (inflight l) ++ skipn (S i) (inflight l))%list
                 (now l)
      | None => l
      end
  | RecordArrives rd =>
      {| now := {| isRetrying := isRetrying (now l);
                   showEditModal := showEditModal (now l);
                   requestData := Some rd;
                   trace := trace (now l) |};
         inflight := inflight l |}
  end.

Definition mount (p : Props) : Live :=
  {| now := initial p; inflight := [] |}.

Definition play (dispatches : bool -> bool) (p : Props) (env : Env)
                (evs : list Event) : Live :=
  fold_left (step dispatches p env) evs (mount p).

Definition Method_eqb (a b : Method) : bool :=
  match a, b with
  | POST, POST | DELETE, DELETE => true
  | _, _ => false
  end.

Definition HttpCall_eqb (a b : HttpCall) : bool :=
  Method_eqb (method a) (method b) && String.eqb (url a) (url b).

(** The number of retry calls of this card that have not settled yet. *)
Definition retriesInFlight (p : Props) (l : Live) : nat :=
  List.length
    (List.filter (fun e => HttpCall_eqb (fst e) (retryCall p)) (inflight l)).

(** A suspended handler that was started by a click on the card. *)
Definition fromHandler (p : Props) (e : HttpCall * (Outcome -> Async)) : Prop :=
  exists b s, snd (exec (onClick p b) s) = Suspended (fst e) (snd e).

(** What holds of a mounted card after every event: the calls in flight
    belong to its handlers, and a retry call is in flight exactly while
    the in-progress flag is set. *)
Definition consistent (p : Props) (l : Live) : Prop :=
  Forall (fromHandler p) (inflight l)
  /\ retriesInFlight p l = if isRetrying (now l) then 1%nat else 0%nat.

(* ===================================================================== *)
(** ** Reading the conditions *)
(* ===================================================================== *)

(** The caller is the user who made the request. *)
Definition callerIsRequester (env : Env) (rd : MediaRequest.t) : Prop :=
  exists u, user env = Some u
            /\ User.id (MediaRequest.requestedBy rd) = User.id u.

Definition canManage (env : Env) : Prop :=
  hasPermission env Permission.MANAGE_REQUESTS = true.

Definition isPending (rd : MediaRequest.t) : Prop :=
  MediaRequest.status rd = MediaRequestStatus.PENDING.

Definition isDeclined (rd : MediaRequest.t) : Prop :=
  MediaRequest.status rd = MediaRequestStatus.DECLINED.

(** The controls a view offers, whichever card it is. *)
Definition buttonCount (v : View) : nat :=
  match v with
  | Placeholder => 0
  | ErrorView e => List.length (errorButtons e)
  | CardView c => List.length (actions c)
  end.

(* ===================================================================== *)
(** ** The rest of the card *)
(* ===================================================================== *)

(** [url], the endpoint of the title fetch, and the key handed to
    [useSWR]: [null] until the card has been in view. *)
Definition titleUrl (p : Props) : string :=
  if MediaType.eq_dec (MediaRequest.type (request p)) MediaType.movie
  then "/api/v1/movie/" ++ num (Media.tmdbId (MediaRequest.media (request p)))
  else "/api/v1/tv/" ++ num (Media.tmdbId (MediaRequest.media (request p))).

Definition titleKey (inView : bool) (p : Props) : option string :=
  if inView then Some (titleUrl p) else None.

(** The key of the record fetch. *)
Definition recordKey (p : Props) : string :=
  "/api/v1/request/" ++ num (MediaRequest.id (request p)).

(** A [string | undefined] used as a condition: the string when it is
    truthy (present and not empty). *)
Definition whenTruthy (s : option string) : option string :=
  match s with
  | Some EmptyString => None
  | Some path => Some path
  | None => None
  end.

Definition posterPathOf (t : TitleDetails) : option string :=
  match t with
  | Movie m => MovieDetails.posterPath m
  | Tv tv => TvDetails.posterPath tv
  end.

Definition backdropPathOf (t : TitleDetails) : option string :=
  match t with
  | Movie m => MovieDetails.backdropPath m
  | Tv tv => TvDetails.backdropPath tv
  end.

(** [title.backdropPath && (<CachedImage src=.../>)] *)
Definition renderBackdrop (t : TitleDetails) : option string :=
  option_map
    (fun path =>
       "https://image.tmdb.org/t/p/w1920_and_h800_multi_faces/" ++ path)
    (whenTruthy (backdropPathOf t)).

(** The [src] of the poster image. *)
Definition posterSrc (t : TitleDetails) : string :=
  match whenTruthy (posterPathOf t) with
  | Some path => "https://image.tmdb.org/t/p/w600_and_h900_bestv2" ++ path
  | None => "/images/overseerr_poster_not_found.png"
  end.

(** [(isMovie(title) ? title.releaseDate : title.firstAirDate)?.slice(0, 4)] *)
Definition titleYear (t : TitleDetails) : option string :=
  option_map (substring 0 4)
             match t with
             | Movie m => MovieDetails.releaseDate m
             | Tv tv => TvDetails.firstAirDate tv
             end.

(** [isMovie(title) ? title.title : title.name] *)
Definition titleText (t : TitleDetails) : string :=
  match t with
  | Movie m => MovieDetails.title m
  | Tv tv => TvDetails.name tv
  end.

(** The [href] of the two links to the title page. *)
Definition titleLink (rd : MediaRequest.t) : string :=
  if MediaType.eq_dec (MediaRequest.type rd) MediaType.movie
  then "/movie/" ++ num (Media.tmdbId (MediaRequest.media rd))
  else "/tv/" ++ num (Media.tmdbId (MediaRequest.media rd)).

(** The left part of the card: backdrop, poster, year and linked title. *)
Record CardHeader : Type := mkHeader
  { backdrop : option string;
    link : string;
    poster : string;
    year : option string;
    heading : string }.

Definition renderHeader (t : TitleDetails) (rd : MediaRequest.t) : CardHeader :=
  {| backdrop := renderBackdrop t;
     link := titleLink rd;
     poster := posterSrc t;
     year := titleYear t;
     heading := titleText t |}.

(** The callbacks handed to [RequestModal]. *)
Definition modalOnCancel : Async := Do (SetShowEditModal false) Return.

Definition modalOnComplete : Async :=
  Do CallRevalidateList (Do (SetShowEditModal false) Return).

(** The call a handler issues first, if it issues one. *)
Fixpoint awaits (prog : Async) : option HttpCall :=
  match prog with
  | Return => None
  | Throw _ => None
  | Do _ k => awaits k
  | Await c _ => Some c
  end.

Definition isHttp (e : Effect) : bool :=
  match e with Http _ => true | _ => false end.

Definition isNotify (e : Effect) : bool :=
  match e with Notify _ => true | _ => false end.

(** Whether a character occurs in a string. *)
Fixpoint occurs (c : Ascii.ascii) (s : string) : bool :=
  match s with
  | EmptyString => false
  | String a rest => Ascii.eqb a c || occurs c rest
  end.

(** The place of each control in the action column. *)
Definition rank (b : ActionButton) : nat :=
  match b with
  | BtnRetry _ => 0
  | BtnDelete => 1
  | BtnApprove => 2
  | BtnDecline => 3
  | BtnEdit => 4
  | BtnCancel => 5
  end.

(** A record with the fields of the standard-quality variant replaced,
    and one with those of the 4K variant replaced. *)
Definition withStandard (rd : MediaRequest.t) (st : MediaStatus.t)
           (ds : option (list DownloadingItem)) (mu : option string)
  : MediaRequest.t :=
  let m := MediaRequest.media rd in
  MediaRequest.mk (MediaRequest.id rd) (MediaRequest.type rd)
    (MediaRequest.status rd) (MediaRequest.is4k rd)
    (Media.mk (Media.id m) (Media.tmdbId m) st (Media.status4k m)
              ds (Media.downloadStatus4k m) mu (Media.mediaUrl4k m))
    (MediaRequest.seasons rd) (MediaRequest.requestedBy rd)
    (MediaRequest.modifiedBy rd).

Definition with4k (rd : MediaRequest.t) (st : MediaStatus.t)
           (ds : option (list DownloadingItem)) (mu : option string)
  : MediaRequest.t :=
  let m := MediaRequest.media rd in
  MediaRequest.mk (MediaRequest.id rd) (MediaRequest.type rd)
    (MediaRequest.status rd) (MediaRequest.is4k rd)
    (Media.mk (Media.id m) (Media.tmdbId m) (Media.status m) st
              (Media.downloadStatus m) ds (Media.mediaUrl m) mu)
    (MediaRequest.seasons rd) (MediaRequest.requestedBy rd)
    (MediaRequest.modifiedBy rd).

(** A card on which every call issued so far is the DELETE of the
    request, and every handler in flight is the delete handler waiting
    for it. *)
Definition quiet (p : Props) (l : Live) : Prop :=
  Forall (fun x => match x with
                   | Http c => c = deleteCall p
                   | _ => True
                   end) (trace (now l))
  /\ Forall (fun e => exists s0,
                 snd (exec (deleteRequest p) s0) = Suspended (fst e) (snd e))
            (inflight l).

(** The control is in the action column of the view: only the card has
    one. *)
Definition shows (v : View) (b : ActionButton) : Prop :=
  match v with
  | CardView c => In b (actions c)
  | _ => False
  end.

(** *** Sample data for the concrete runs below *)

Definition ann : User.t := User.mk 1 "ann" "/avatar/1".
Definition bob : User.t := User.mk 4 "bob" "/avatar/4".

Definition fightClubMedia : Media.t :=
  Media.mk 3 550 MediaStatus.UNKNOWN MediaStatus.UNKNOWN None None None None.

Definition darkMedia : Media.t :=
  Media.mk 5 70523 MediaStatus.PROCESSING MediaStatus.UNKNOWN
           None None None None.

(** Bob's requests: a film in each status used below, and two seasons of
    a show. *)
Definition filmRequest (status : MediaRequestStatus.t) : MediaRequest.t :=
  MediaRequest.mk 12 MediaType.movie status false fightClubMedia [] bob None.

Definition showRequest : MediaRequest.t :=
  MediaRequest.mk 13 MediaType.tv MediaRequestStatus.PENDING false darkMedia
                  [SeasonRequest.mk 31 1; SeasonRequest.mk 32 3] bob None.

Definition fightClub : TitleDetails :=
  Movie (MovieDetails.mk "Fight Club" (Some "1999-10-15") None None).

Definition dark : TitleDetails :=
  Tv (TvDetails.mk "Dark" (Some "2017-12-01") None None
                   [Season.mk 0; Season.mk 1; Season.mk 2; Season.mk 3]).

(** Bob without any permission, Ann with all of them, and a signed-in
    user who is neither. *)
Definition asBob : Env :=
  {| user := Some bob; hasPermission := fun _ => false;
     title := Some fightClub; error := false |}.

Definition asAnn : Env :=
  {| user := Some ann; hasPermission := fun _ => true;
     title := Some fightClub; error := false |}.

Definition asEve : Env :=
  {| user := Some (User.mk 7 "eve" "/avatar/7");
     hasPermission := fun _ => false;
     title := None; error := true |}.

(** Bob looking at the card of his show, and Ann at a card whose title
    failed to load. *)
Definition asBobDark : Env :=
  {| user := Some bob; hasPermission := fun _ => false;
     title := Some dark; error := false |}.


(** A network on which every call fails. *)
Definition offline (c : HttpCall) : Outcome :=
  Rejected (axiosError "Network Error").

(* ===================================================================== *)
(** ** Concrete runs *)
(* ===================================================================== *)

Example manager_pending_film :
  renderActions asAnn false (filmRequest MediaRequestStatus.PENDING)
  = [BtnRetry false; BtnApprove; BtnDecline; BtnEdit].
Proof. reflexivity. Qed.

Example manager_approved_film_retrying :
  renderActions asAnn true (filmRequest MediaRequestStatus.APPROVED)
  = [BtnRetry true; BtnDelete].
Proof. reflexivity. Qed.

Example manager_declined_film :
  renderActions asAnn false (filmRequest MediaRequestStatus.DECLINED)
  = [BtnDelete].
Proof. reflexivity. Qed.

Example requester_pending_show :
  renderActions asBob false showRequest = [BtnEdit; BtnCancel].
Proof. reflexivity. Qed.

Example requester_pending_film :
  renderActions asBob false (filmRequest MediaRequestStatus.PENDING)
  = [BtnCancel].
Proof. reflexivity. Qed.

Example approved_film_card :
  RequestItem {| request := filmRequest MediaRequestStatus.APPROVED |} asAnn
              (initial {| request := filmRequest MediaRequestStatus.APPROVED |})
  = CardView {| modalShown := false;
                seasonField := None;
                statusField := FailedBadge "/movie/550?manage=1";
                actions := [BtnRetry false; BtnDelete] |}.
Proof. reflexivity. Qed.

Example show_seasons :
  renderSeasons dark {| request := showRequest |}
  = Some {| seasonCount := 2;
            seasonLabel := "Seasons";
            seasonBadges := NumberBadges [1; 3] |}.
Proof. reflexivity. Qed.

Example failed_title_card :
  RequestItem {| request := filmRequest MediaRequestStatus.PENDING |} asEve
              (initial {| request := filmRequest MediaRequestStatus.PENDING |})
  = ErrorView {| errorMessage :=
                   "The associated title for this request is no longer available.";
                 errorButtons := [] |}.
Proof. reflexivity. Qed.

Example retry_succeeds :
  run (fun _ => Fulfilled {| data := filmRequest MediaRequestStatus.APPROVED |})
      (retryRequest {| request := filmRequest MediaRequestStatus.PENDING |})
      (initial {| request := filmRequest MediaRequestStatus.PENDING |})
  = ({| isRetrying := false;
        showEditModal := false;
        requestData := Some (filmRequest MediaRequestStatus.APPROVED);
        trace := [Http {| method := POST; url := "/api/v1/request/12/retry" |};
                  RevalidateRecord] |},
     Done).
Proof. vm_compute. reflexivity. Qed.

Example retry_fails :
  run offline
      (retryRequest {| request := filmRequest MediaRequestStatus.APPROVED |})
      (initial {| request := filmRequest MediaRequestStatus.APPROVED |})
  = ({| isRetrying := false;
        showEditModal := false;
        requestData := Some (filmRequest MediaRequestStatus.APPROVED);
        trace := [Http {| method := POST; url := "/api/v1/request/12/retry" |};
                  Notify failedRetryToast] |},
     Done).
Proof. vm_compute. reflexivity. Qed.

(** Three clicks in a row on Retry start one call when a disabled button
    swallows clicks, and three when it does not. *)
Example impatient_clicks :
  retriesInFlight
    {| request := filmRequest MediaRequestStatus.APPROVED |}
    (play negb {| request := filmRequest MediaRequestStatus.APPROVED |} asAnn
          [Click (BtnRetry false); Click (BtnRetry true); Click (BtnRetry true)])
  = 1%nat
  /\ retriesInFlight
       {| request := filmRequest MediaRequestStatus.APPROVED |}
       (play (fun _ => true)
             {| request := filmRequest MediaRequestStatus.APPROVED |} asAnn
             [Click (BtnRetry false); Click (BtnRetry true);
              Click (BtnRetry true)])
     = 3%nat.
Proof. split; vm_compute; reflexivity. Qed.

(* ===================================================================== *)
(** ** Reading the conditions back *)
(* ===================================================================== *)

Lemma isStatus_true rd s :
  isStatus rd s = true <-> MediaRequest.status rd = s.
Proof.
  unfold isStatus.
  destruct (MediaRequestStatus.eq_dec (MediaRequest.status rd) s);
    split; congruence.
Qed.

Lemma isStatus_false rd s :
  isStatus rd s = false <-> MediaRequest.status rd <> s.
Proof.
  unfold isStatus.
  destruct (MediaRequestStatus.eq_dec (MediaRequest.status rd) s);
    split; congruence.
Qed.

Lemma isUnknown_true m : isUnknown m = true <-> m = MediaStatus.UNKNOWN.
Proof.
  unfold isUnknown.
  destruct (MediaStatus.eq_dec m MediaStatus.UNKNOWN); split; congruence.
Qed.

Lemma isUnknown_false m : isUnknown m = false <-> m <> MediaStatus.UNKNOWN.
Proof.
  unfold isUnknown.
  destruct (MediaStatus.eq_dec m MediaStatus.UNKNOWN); split; congruence.
Qed.

Lemma isTv_true rd : isTv rd = true <-> MediaRequest.type rd = MediaType.tv.
Proof.
  unfold isTv.
  destruct (MediaType.eq_dec (MediaRequest.type rd) MediaType.tv);
    split; congruence.
Qed.

Lemma isRequester_true env rd :
  isRequester env rd = true <-> callerIsRequester env rd.
Proof.
  unfold isRequester, callerIsRequester.
  destruct (user env) as [u|].
  - rewrite Z.eqb_eq. split.
    + intros H. exists u. auto.
    + intros [u' [E H]]. injection E as <-. exact H.
  - split; [discriminate | intros [u [E _]]; discriminate].
Qed.

Lemma isRequester_false env rd :
  isRequester env rd = false <-> ~ callerIsRequester env rd.
Proof.
  rewrite <- isRequester_true.
  destruct (isRequester env rd); split; congruence.
Qed.

Lemma in_when {A : Type} (x : A) (c : bool) (l : list A) :
  In x (when c l) <-> c = true /\ In x l.
Proof.
  unfold when. destruct c; simpl; intuition congruence.
Qed.

(** Membership in the action column, block by block. *)
Lemma in_renderActions env retrying rd b :
  In b (renderActions env retrying rd) <->
  (isUnknown (selectedStatus rd)
   && negb (isStatus rd MediaRequestStatus.DECLINED)
   && hasPermission env Permission.MANAGE_REQUESTS = true
   /\ b = BtnRetry retrying)
  \/ (negb (isStatus rd MediaRequestStatus.PENDING)
      && hasPermission env Permission.MANAGE_REQUESTS = true
      /\ b = BtnDelete)
  \/ (isStatus rd MediaRequestStatus.PENDING
      && hasPermission env Permission.MANAGE_REQUESTS = true
      /\ (b = BtnApprove \/ b = BtnDecline))
  \/ (isStatus rd MediaRequestStatus.PENDING
      && (hasPermission env Permission.MANAGE_REQUESTS
          || (isRequester env rd
              && (isTv rd || hasPermission env Permission.REQUEST_ADVANCED)))
      = true
      /\ b = BtnEdit)
  \/ (isStatus rd MediaRequestStatus.PENDING
      && negb (hasPermission env Permission.MANAGE_REQUESTS)
      && isRequester env rd = true
      /\ b = BtnCancel).
Proof.
  unfold renderActions. cbv zeta.
  rewrite !in_app_iff, !in_when. simpl.
  intuition (subst; auto).
Qed.

Ltac bools :=
  repeat match goal with
    | H : _ && _ = true |- _ => apply andb_true_iff in H; destruct H
    | H : _ || _ = true |- _ => apply orb_true_iff in H
    | H : negb _ = true |- _ => apply negb_true_iff in H
    | H : isStatus _ _ = true |- _ => apply isStatus_true in H
    | H : isStatus _ _ = false |- _ => apply isStatus_false in H
    | H : isUnknown _ = true |- _ => apply isUnknown_true in H
    | H : isTv _ = true |- _ => apply isTv_true in H
    | H : isRequester _ _ = true |- _ => apply isRequester_true in H
    | H : isRequester _ _ = false |- _ => apply isRequester_false in H
    end.

(* ===================================================================== *)
(** ** Which controls are rendered *)
(* ===================================================================== *)

(** With the title loaded and the record present the component shows the
    card, whose action column is [renderActions] at the current flag. *)
Lemma RequestItem_card p env s t rd :
  title env = Some t ->
  requestData s = Some rd ->
  RequestItem p env s
  = CardView {| modalShown := showEditModal s;
                seasonField := renderSeasons t p;
                statusField := renderStatus rd;
                actions := renderActions env (isRetrying s) rd |}.
Proof.
  intros T R. unfold RequestItem. rewrite T, R.
  destruct (error env); reflexivity.
Qed.

(** On the card, a control is shown when it is in the column computed
    from the record at the current flag. *)
Lemma shows_card p env s t rd b :
  title env = Some t ->
  requestData s = Some rd ->
  (shows (RequestItem p env s) b <->
   In b (renderActions env (isRetrying s) rd)).
Proof.
  intros T R. rewrite (RequestItem_card p env s t rd T R). reflexivity.
Qed.

(** The status the card selects is that of the 4K variant for a 4K
    request and that of the standard variant otherwise. *)
Lemma selectedStatus_spec rd m :
  selectedStatus rd = m <->
  (MediaRequest.is4k rd = true
   /\ Media.status4k (MediaRequest.media rd) = m)
  \/ (MediaRequest.is4k rd = false
      /\ Media.status (MediaRequest.media rd) = m).
Proof.
  unfold selectedStatus. destruct (MediaRequest.is4k rd); split.
  - intros H. left. auto.
  - intros [[_ H]|[E _]]; [exact H|discriminate E].
  - intros H. right. auto.
  - intros [[E _]|[_ H]]; [discriminate E|exact H].
Qed.

Lemma selectedStatus_neq_spec rd m :
  selectedStatus rd <> m <->
  (MediaRequest.is4k rd = true
   /\ Media.status4k (MediaRequest.media rd) <> m)
  \/ (MediaRequest.is4k rd = false
      /\ Media.status (MediaRequest.media rd) <> m).
Proof.
  unfold selectedStatus. destruct (MediaRequest.is4k rd); split.
  - intros H. left. auto.
  - intros [[_ H]|[E _]]; [exact H|discriminate E].
  - intros H. right. auto.
  - intros [[E _]|[_ H]]; [discriminate E|exact H].
Qed.

(** The retry button in the column computed from a record. *)
Lemma retry_in_column_iff (env : Env) (retrying : bool) (rd : MediaRequest.t) :
  (exists d, In (BtnRetry d) (renderActions env retrying rd)) <->
  selectedStatus rd = MediaStatus.UNKNOWN
  /\ ~ isDeclined rd
  /\ canManage env.
Proof.
  unfold isDeclined, canManage. split.
  - intros [d H]. apply in_renderActions in H.
    destruct H as [[H _]|[[_ E]|[[_ [E|E]]|[[_ E]|[_ E]]]]]; try discriminate.
    bools. auto.
  - intros (U & D & M). exists retrying. apply in_renderActions. left.
    split; [|reflexivity].
    apply isUnknown_true in U. apply isStatus_false in D.
    rewrite U, D, M. reflexivity.
Qed.

(** C1. For every request and caller, with the title loaded and the
    record present, the component renders the Retry button if and only if
    the media status of the quality variant selected by [is4k] (the 4K
    status of a 4K request, the standard status otherwise) is unknown, the
    request status is not declined, and the caller has the manage-requests
    permission. *)
Theorem retry_rendered_iff
        (p : Props) (env : Env) (s : State)
        (t : TitleDetails) (rd : MediaRequest.t) :
  title env = Some t ->
  requestData s = Some rd ->
  ((exists d, shows (RequestItem p env s) (BtnRetry d)) <->
   ((MediaRequest.is4k rd = true
     /\ Media.status4k (MediaRequest.media rd) = MediaStatus.UNKNOWN)
    \/ (MediaRequest.is4k rd = false
        /\ Media.status (MediaRequest.media rd) = MediaStatus.UNKNOWN))
   /\ ~ isDeclined rd
   /\ canManage env).
Proof.
  intros T R.
  rewrite <- selectedStatus_spec,
    <- (retry_in_column_iff env (isRetrying s) rd).
  split; intros [d H]; exists d;
    apply (shows_card p env s t rd (BtnRetry d) T R); exact H.
Qed.

Lemma retry_rendered_iff_witness :
  exists d,
    shows (RequestItem {| request := filmRequest MediaRequestStatus.APPROVED |}
                       asAnn
                       (initial {| request :=
                                     filmRequest MediaRequestStatus.APPROVED |}))
          (BtnRetry d).
Proof.
  apply (proj2 (retry_rendered_iff
                  {| request := filmRequest MediaRequestStatus.APPROVED |}
                  asAnn
                  (initial {| request :=
                                filmRequest MediaRequestStatus.APPROVED |})
                  fightClub (filmRequest MediaRequestStatus.APPROVED)
                  eq_refl eq_refl)).
  split; [right; split; reflexivity|]. split; [discriminate|reflexivity].
Defined.

(** The edit button in the column computed from a record. *)
Lemma edit_in_column (env : Env) (retrying : bool) (rd : MediaRequest.t) :
  (In BtnEdit (renderActions env retrying rd) <->
   isPending rd
   /\ (canManage env
       \/ (callerIsRequester env rd
           /\ (MediaRequest.type rd = MediaType.tv
               \/ hasPermission env Permission.REQUEST_ADVANCED = true))))
  /\ (isPending rd -> callerIsRequester env rd ->
      MediaRequest.type rd = MediaType.tv ->
      hasPermission env Permission.REQUEST_ADVANCED = false ->
      In BtnEdit (renderActions env retrying rd))
  /\ (isPending rd -> callerIsRequester env rd ->
      MediaRequest.type rd = MediaType.movie ->
      hasPermission env Permission.MANAGE_REQUESTS = false ->
      hasPermission env Permission.REQUEST_ADVANCED = false ->
      ~ In BtnEdit (renderActions env retrying rd)).
Proof.
  assert (Iff : In BtnEdit (renderActions env retrying rd) <->
                isPending rd
                /\ (canManage env
                    \/ (callerIsRequester env rd
                        /\ (MediaRequest.type rd = MediaType.tv
                            \/ hasPermission env Permission.REQUEST_ADVANCED
                               = true)))).
  { unfold isPending, canManage. split.
    - intros H. apply in_renderActions in H.
      destruct H as [[_ E]|[[_ E]|[[_ [E|E]]|[[H _]|[_ E]]]]]; try discriminate.
      bools. split; [assumption|].
      destruct H0 as [M|R]; [left; exact M|right].
      bools. split; [assumption|].
      destruct H1 as [T|A]; [left; apply isTv_true; exact T|right; exact A].
    - intros [P C]. apply in_renderActions. do 3 right. left.
      split; [|reflexivity].
      apply isStatus_true in P. rewrite P. simpl.
      destruct C as [M|[R [T|A]]].
      + rewrite M. reflexivity.
      + apply isRequester_true in R. apply isTv_true in T.
        rewrite R, T. apply orb_true_r.
      + apply isRequester_true in R. rewrite R, A.
        rewrite !orb_true_r. reflexivity. }
  split; [exact Iff|split].
  - intros P R T _. apply Iff. split; [exact P|]. right. split; [exact R|].
    left. exact T.
  - intros P R T M A H. apply Iff in H. destruct H as [_ [C|[_ [C|C]]]].
    + unfold canManage in C. congruence.
    + congruence.
    + congruence.
Qed.

(** C3. For every request and caller, with the title loaded and the
    record present, the component renders the Edit button if and only if
    the request is pending and the caller either has the manage-requests
    permission, or is the requester of a tv request, or is the requester
    and has the advanced-request permission.  So the requester of a
    pending tv request sees it without the advanced permission, and the
    requester of a pending movie request who has neither permission does
    not. *)
Theorem edit_rendered_iff
        (p : Props) (env : Env) (s : State)
        (t : TitleDetails) (rd : MediaRequest.t) :
  title env = Some t ->
  requestData s = Some rd ->
  (shows (RequestItem p env s) BtnEdit <->
   isPending rd
   /\ (canManage env
       \/ (callerIsRequester env rd
           /\ (MediaRequest.type rd = MediaType.tv
               \/ hasPermission env Permission.REQUEST_ADVANCED = true))))
  /\ (isPending rd -> callerIsRequester env rd ->
      MediaRequest.type rd = MediaType.tv ->
      hasPermission env Permission.REQUEST_ADVANCED = false ->
      shows (RequestItem p env s) BtnEdit)
  /\ (isPending rd -> callerIsRequester env rd ->
      MediaRequest.type rd = MediaType.movie ->
      hasPermission env Permission.MANAGE_REQUESTS = false ->
      hasPermission env Permission.REQUEST_ADVANCED = false ->
      ~ shows (RequestItem p env s) BtnEdit).
Proof.
  intros T R.
  rewrite (shows_card p env s t rd BtnEdit T R).
  exact (edit_in_column env (isRetrying s) rd).
Qed.

Lemma edit_rendered_iff_witness :
  shows (RequestItem {| request := showRequest |} asBobDark
                     (initial {| request := showRequest |}))
        BtnEdit
  /\ ~ shows (RequestItem
                {| request := filmRequest MediaRequestStatus.PENDING |} asBob
                (initial {| request :=
                              filmRequest MediaRequestStatus.PENDING |}))
             BtnEdit.
Proof.
  split.
  - apply (proj1 (proj2 (edit_rendered_iff
                           {| request := showRequest |} asBobDark
                           (initial {| request := showRequest |})
                           dark showRequest eq_refl eq_refl))).
    + reflexivity.
    + exists bob. split; reflexivity.
    + reflexivity.
    + reflexivity.
  - apply (proj2 (proj2 (edit_rendered_iff
                           {| request := filmRequest MediaRequestStatus.PENDING |}
                           asBob
                           (initial {| request :=
                                         filmRequest MediaRequestStatus.PENDING |})
                           fightClub (filmRequest MediaRequestStatus.PENDING)
                           eq_refl eq_refl))).
    + reflexivity.
    + exists bob. split; reflexivity.
    + reflexivity.
    + reflexivity.
    + reflexivity.
Defined.

(** The two confirm buttons in the column computed from a record. *)
Lemma delete_cancel_in_column
      (env : Env) (retrying : bool) (rd : MediaRequest.t) :
  (In BtnDelete (renderActions env retrying rd) <->
   ~ isPending rd /\ canManage env)
  /\ (In BtnCancel (renderActions env retrying rd) <->
      isPending rd /\ ~ canManage env /\ callerIsRequester env rd)
  /\ ~ (In BtnDelete (renderActions env retrying rd)
        /\ In BtnCancel (renderActions env retrying rd)).
Proof.
  assert (D : In BtnDelete (renderActions env retrying rd) <->
              ~ isPending rd /\ canManage env).
  { unfold isPending, canManage. split.
    - intros H. apply in_renderActions in H.
      destruct H as [[_ E]|[[H _]|[[_ [E|E]]|[[_ E]|[_ E]]]]]; try discriminate.
      bools. auto.
    - intros [P M]. apply in_renderActions. right. left.
      split; [|reflexivity].
      apply isStatus_false in P. rewrite P, M. reflexivity. }
  assert (C : In BtnCancel (renderActions env retrying rd) <->
              isPending rd /\ ~ canManage env /\ callerIsRequester env rd).
  { unfold isPending, canManage. split.
    - intros H. apply in_renderActions in H.
      destruct H as [[_ E]|[[_ E]|[[_ [E|E]]|[[_ E]|[H _]]]]]; try discriminate.
      bools. repeat split; try assumption. congruence.
    - intros (P & M & R). apply in_renderActions. do 4 right.
      split; [|reflexivity].
      apply isStatus_true in P. apply isRequester_true in R.
      apply not_true_is_false in M. rewrite P, M, R. reflexivity. }
  split; [exact D|split; [exact C|]].
  intros [HD HC]. apply D in HD. apply C in HC. tauto.
Qed.

(** C4. For every request and caller, with the title loaded and the
    record present, the component renders the Delete confirm button if and
    only if the request is not pending and the caller has the
    manage-requests permission, and the Cancel confirm button if and only
    if the request is pending, the caller lacks that permission and is the
    requester; the two are never rendered together. *)
Theorem delete_cancel_rendered_iff
        (p : Props) (env : Env) (s : State)
        (t : TitleDetails) (rd : MediaRequest.t) :
  title env = Some t ->
  requestData s = Some rd ->
  (shows (RequestItem p env s) BtnDelete <->
   ~ isPending rd /\ canManage env)
  /\ (shows (RequestItem p env s) BtnCancel <->
      isPending rd /\ ~ canManage env /\ callerIsRequester env rd)
  /\ ~ (shows (RequestItem p env s) BtnDelete
        /\ shows (RequestItem p env s) BtnCancel).
Proof.
  intros T R.
  rewrite (shows_card p env s t rd BtnDelete T R),
    (shows_card p env s t rd BtnCancel T R).
  exact (delete_cancel_in_column env (isRetrying s) rd).
Qed.

Lemma delete_cancel_rendered_iff_witness :
  shows (RequestItem {| request := filmRequest MediaRequestStatus.APPROVED |}
                     asAnn
                     (initial {| request :=
                                   filmRequest MediaRequestStatus.APPROVED |}))
        BtnDelete
  /\ shows (RequestItem {| request := showRequest |} asBobDark
                        (initial {| request := showRequest |}))
           BtnCancel.
Proof.
  split.
  - apply (proj1 (delete_cancel_rendered_iff
                    {| request := filmRequest MediaRequestStatus.APPROVED |}
                    asAnn
                    (initial {| request :=
                                  filmRequest MediaRequestStatus.APPROVED |})
                    fightClub (filmRequest MediaRequestStatus.APPROVED)
                    eq_refl eq_refl)).
    split; [discriminate|reflexivity].
  - apply (proj1 (proj2 (delete_cancel_rendered_iff
                           {| request := showRequest |} asBobDark
                           (initial {| request := showRequest |})
                           dark showRequest eq_refl eq_refl))).
    split; [reflexivity|]. split; [discriminate|].
    exists bob. split; reflexivity.
Defined.

(** C6. For a pending request and a caller who lacks the manage-requests
    permission and is not the requester, the action column is empty (no
    retry, delete, approve, decline, edit or cancel control), and whatever
    view the component shows for that record offers no control at all. *)
Theorem stranger_sees_no_buttons
        (env : Env) (retrying : bool) (rd : MediaRequest.t) :
  isPending rd ->
  ~ canManage env ->
  ~ callerIsRequester env rd ->
  renderActions env retrying rd = []
  /\ forall (p : Props) (s : State),
       requestData s = Some rd -> buttonCount (RequestItem p env s) = 0%nat.
Proof.
  unfold isPending, canManage. intros P M R.
  apply isStatus_true in P. apply not_true_is_false in M.
  apply isRequester_false in R.
  assert (A : forall b, renderActions env b rd = []).
  { intros b. unfold renderActions. cbv zeta.
    rewrite P, M, R. simpl. rewrite !andb_false_r. reflexivity. }
  split; [apply A|].
  intros p s E. unfold RequestItem. rewrite E.
  destruct (title env) as [t|], (error env); simpl;
    try rewrite A; try rewrite M; reflexivity.
Qed.

Lemma stranger_sees_no_buttons_witness :
  renderActions asEve false (filmRequest MediaRequestStatus.PENDING) = []
  /\ forall (p : Props) (s : State),
       requestData s = Some (filmRequest MediaRequestStatus.PENDING) ->
       buttonCount (RequestItem p asEve s) = 0%nat.
Proof.
  apply (stranger_sees_no_buttons
           asEve false (filmRequest MediaRequestStatus.PENDING)).
  - reflexivity.
  - unfold canManage. simpl. discriminate.
  - unfold callerIsRequester. simpl. intros [u [E H]].
    injection E as <-. simpl in H. discriminate.
Defined.

(* ===================================================================== *)
(** ** The status and season fields *)
(* ===================================================================== *)

(** The three badges of the status field computed from a record. *)
Lemma status_field_cases (rd : MediaRequest.t) :
  (renderStatus rd = DeclinedBadge <-> isDeclined rd)
  /\ ((exists href, renderStatus rd = FailedBadge href) <->
      ~ isDeclined rd /\ selectedStatus rd = MediaStatus.UNKNOWN)
  /\ ((exists st ip k id ty pu, renderStatus rd = StatusBadge st ip k id ty pu) <->
      ~ isDeclined rd /\ selectedStatus rd <> MediaStatus.UNKNOWN)
  /\ match renderStatus rd with
     | StatusBadge st _ k _ _ _ =>
         st = selectedStatus rd /\ k = MediaRequest.is4k rd
     | _ => True
     end.
Proof.
  unfold isDeclined, renderStatus.
  destruct (isStatus rd MediaRequestStatus.DECLINED) eqn:D;
    [apply isStatus_true in D | apply isStatus_false in D];
    (destruct (isUnknown (selectedStatus rd)) eqn:U;
     [apply isUnknown_true in U | apply isUnknown_false in U]).
  all: repeat split; intros;
    repeat match goal with
      | H : exists _, _ |- _ => destruct H
      | H : _ /\ _ |- _ => destruct H
      end;
    try discriminate; try congruence; try tauto;
    try (repeat eexists; reflexivity).
Qed.

(** C9. With the title loaded and the record present, the status field
    of the card shows the declined badge exactly for a declined request,
    whatever the media status; the failed badge exactly when the request
    is not declined and the media status of the quality variant selected
    by [is4k] (the 4K status of a 4K request, the standard status
    otherwise) is unknown; and the general status badge exactly when the
    request is not declined and that media status is not unknown, and it
    then carries that status. *)
Theorem status_field_precedence
        (p : Props) (env : Env) (s : State)
        (t : TitleDetails) (rd : MediaRequest.t) :
  title env = Some t ->
  requestData s = Some rd ->
  exists c,
    RequestItem p env s = CardView c
    /\ (statusField c = DeclinedBadge <-> isDeclined rd)
    /\ ((exists href, statusField c = FailedBadge href) <->
        ~ isDeclined rd
        /\ ((MediaRequest.is4k rd = true
             /\ Media.status4k (MediaRequest.media rd) = MediaStatus.UNKNOWN)
            \/ (MediaRequest.is4k rd = false
                /\ Media.status (MediaRequest.media rd)
                   = MediaStatus.UNKNOWN)))
    /\ ((exists st ip k id ty pu,
            statusField c = StatusBadge st ip k id ty pu) <->
        ~ isDeclined rd
        /\ ((MediaRequest.is4k rd = true
             /\ Media.status4k (MediaRequest.media rd) <> MediaStatus.UNKNOWN)
            \/ (MediaRequest.is4k rd = false
                /\ Media.status (MediaRequest.media rd)
                   <> MediaStatus.UNKNOWN)))
    /\ match statusField c with
       | StatusBadge st _ k _ _ _ =>
           ((MediaRequest.is4k rd = true
             /\ Media.status4k (MediaRequest.media rd) = st)
            \/ (MediaRequest.is4k rd = false
                /\ Media.status (MediaRequest.media rd) = st))
           /\ k = MediaRequest.is4k rd
       | _ => True
       end.
Proof.
  intros T R. eexists. split; [exact (RequestItem_card p env s t rd T R)|].
  cbn [statusField].
  rewrite <- selectedStatus_spec, <- selectedStatus_neq_spec.
  destruct (status_field_cases rd) as (D & F & B & K).
  split; [exact D|]. split; [exact F|]. split; [exact B|].
  destruct (renderStatus rd); try exact I.
  destruct K as [K1 K2]. split; [|exact K2].
  apply selectedStatus_spec. symmetry. exact K1.
Qed.

Lemma status_field_precedence_witness :
  exists c,
    RequestItem {| request := filmRequest MediaRequestStatus.APPROVED |} asAnn
                (initial {| request := filmRequest MediaRequestStatus.APPROVED |})
    = CardView c
    /\ exists href, statusField c = FailedBadge href.
Proof.
  destruct (status_field_precedence
              {| request := filmRequest MediaRequestStatus.APPROVED |} asAnn
              (initial {| request := filmRequest MediaRequestStatus.APPROVED |})
              fightClub (filmRequest MediaRequestStatus.APPROVED)
              eq_refl eq_refl) as (c & E & _ & F & _).
  exists c. split; [exact E|]. apply F.
  split; [discriminate|]. right. split; reflexivity.
Defined.

(** The season field computed for a tv title and a non-empty request. *)
Lemma season_field_cases (t : TitleDetails) (p : Props) :
  isMovie t = false ->
  MediaRequest.seasons (request p) <> [] ->
  exists tv f,
    t = Tv tv
    /\ renderSeasons t p = Some f
    /\ (seasonBadges f = AllBadge <->
        List.length (MediaRequest.seasons (request p))
        = List.length (List.filter
                         (fun s => negb (Season.seasonNumber s =? 0))
                         (TvDetails.seasons tv)))
    /\ (seasonBadges f <> AllBadge ->
        seasonBadges f
        = NumberBadges (List.map SeasonRequest.seasonNumber
                                 (MediaRequest.seasons (request p)))
        /\ seasonCount f = List.length (MediaRequest.seasons (request p)))
    /\ (seasonCount f = 0%nat <-> seasonBadges f = AllBadge)
    /\ (seasonCount f = 0%nat -> seasonLabel f = "Seasons")
    /\ seasonLabel f = messages.seasons (seasonCount f).
Proof.
  intros M N. destruct t as [m|tv]; [discriminate|].
  exists tv. unfold renderSeasons, nonSpecials.
  destruct (MediaRequest.seasons (request p)) as [|r rs] eqn:E; [congruence|].
  change (Nat.ltb 0 (List.length (r :: rs))) with true. cbv iota.
  eexists. split; [reflexivity|]. split; [reflexivity|]. cbv beta iota zeta.
  unfold seasonBadges, seasonCount, seasonLabel.
  destruct (Nat.eqb_spec
              (List.length
                 (List.filter (fun season => negb (Season.seasonNumber season =? 0))
                              (TvDetails.seasons tv)))
              (List.length (r :: rs))) as [Q|Q].
  - repeat split; try congruence; try tauto; auto.
  - repeat split; try congruence; try tauto; auto; try discriminate.
Qed.

(** C10. For a tv title that is loaded, a record that is present and a
    request with a non-empty list of requested seasons, the card shows the
    season field; it holds the single All badge if and only if the number
    of requested seasons equals the number of the title's seasons whose
    season number is not 0, and otherwise one badge per requested season
    number, in order; the season count handed to the label is 0 exactly in
    the All case (and the number of requested seasons otherwise), and with
    count 0 the label reads as the plural form. *)
Theorem season_field_all_or_numbers
        (p : Props) (env : Env) (s : State)
        (t : TitleDetails) (rd : MediaRequest.t) :
  title env = Some t ->
  requestData s = Some rd ->
  isMovie t = false ->
  MediaRequest.seasons (request p) <> [] ->
  exists tv c f,
    t = Tv tv
    /\ RequestItem p env s = CardView c
    /\ seasonField c = Some f
    /\ (seasonBadges f = AllBadge <->
        List.length (MediaRequest.seasons (request p))
        = List.length (List.filter
                         (fun season => negb (Season.seasonNumber season =? 0))
                         (TvDetails.seasons tv)))
    /\ (seasonBadges f <> AllBadge ->
        seasonBadges f
        = NumberBadges (List.map SeasonRequest.seasonNumber
                                 (MediaRequest.seasons (request p)))
        /\ seasonCount f = List.length (MediaRequest.seasons (request p)))
    /\ (seasonCount f = 0%nat <-> seasonBadges f = AllBadge)
    /\ (seasonCount f = 0%nat -> seasonLabel f = "Seasons")
    /\ seasonLabel f = messages.seasons (seasonCount f).
Proof.
  intros T R M N.
  destruct (season_field_cases t p M N) as (tv & f & E & F & K).
  exists tv. eexists. exists f. split; [exact E|].
  split; [exact (RequestItem_card p env s t rd T R)|].
  cbn [seasonField]. split; [exact F|exact K].
Qed.

Lemma season_field_all_or_numbers_witness :
  exists c f,
    RequestItem {| request := showRequest |} asBobDark
                (initial {| request := showRequest |})
    = CardView c
    /\ seasonField c = Some f
    /\ seasonCount f <> 0%nat.
Proof.
  destruct (season_field_all_or_numbers
              {| request := showRequest |} asBobDark
              (initial {| request := showRequest |}) dark showRequest
              eq_refl eq_refl)
    as (tv & c & f & E & V & F & A & _ & C & _).
  - reflexivity.
  - simpl. discriminate.
  - exists c, f. split; [exact V|]. split; [exact F|].
    intros Z. apply C in Z. apply A in Z.
    injection E as <-. simpl in Z. discriminate.
Defined.

(* ===================================================================== *)
(** ** What the handlers do *)
(* ===================================================================== *)

Lemma emits_emits es1 es2 s :
  emits es2 (emits es1 s) = emits (es1 ++ es2) s.
Proof.
  unfold emits. simpl. rewrite <- app_assoc. reflexivity.
Qed.

Lemma run_modifyRequest p type net s :
  run net (modifyRequest p type) s =
  match net (modifyCall p type) with
  | Fulfilled _ => (emits [Http (modifyCall p type); RevalidateRecord] s, Done)
  | Rejected e => (emits [Http (modifyCall p type)] s, Failed e)
  end.
Proof.
  unfold modifyRequest, await. cbn [run].
  destruct (net (modifyCall p type)) as [r|e]; cbn [run response_truthy perform];
    [|reflexivity].
  unfold emits. cbn [isRetrying showEditModal requestData trace].
  rewrite <- app_assoc. reflexivity.
Qed.

(** The approve and the decline button in the column computed from a
    record. *)
Lemma approve_decline_in_column
      (env : Env) (retrying : bool) (rd : MediaRequest.t) (b : ActionButton) :
  b = BtnApprove \/ b = BtnDecline ->
  (In b (renderActions env retrying rd) <-> isPending rd /\ canManage env).
Proof.
  intros Hb. unfold isPending, canManage. split.
  - intros H. apply in_renderActions in H.
    destruct H as [[_ E]|[[_ E]|[[H _]|[[_ E]|[_ E]]]]];
      try (destruct Hb; congruence).
    bools. auto.
  - intros [P M]. apply in_renderActions. do 2 right. left.
    split; [|exact Hb].
    apply isStatus_true in P. rewrite P, M. reflexivity.
Qed.

(** C2, as the code has it.  For every request and caller, with the title
    loaded and the record present, the component renders the Approve and
    the Decline button each if and only if the request is pending and the
    caller has the manage-requests permission.  Invoking one issues exactly
    one call, a POST to [/api/v1/request/<id>/approve] (respectively
    [/decline]) of the request; when that POST succeeds the handler then
    triggers one revalidation of the local request record, and when it
    fails the handler rejects with the error and triggers no
    revalidation. *)
Theorem approve_decline_rendered_and_post
        (p : Props) (env : Env) (s : State)
        (t : TitleDetails) (rd : MediaRequest.t)
        (net : HttpCall -> Outcome) (s0 : State) :
  title env = Some t ->
  requestData s = Some rd ->
  (shows (RequestItem p env s) BtnApprove <-> isPending rd /\ canManage env)
  /\ (shows (RequestItem p env s) BtnDecline <-> isPending rd /\ canManage env)
  /\ modifyCall p approve
     = {| method := POST;
          url := "/api/v1/request/" ++ num (MediaRequest.id (request p))
                 ++ "/approve" |}
  /\ modifyCall p decline
     = {| method := POST;
          url := "/api/v1/request/" ++ num (MediaRequest.id (request p))
                 ++ "/decline" |}
  /\ run net (onClick p BtnApprove) s0
     = match net (modifyCall p approve) with
       | Fulfilled _ =>
           (emits [Http (modifyCall p approve); RevalidateRecord] s0, Done)
       | Rejected e => (emits [Http (modifyCall p approve)] s0, Failed e)
       end
  /\ run net (onClick p BtnDecline) s0
     = match net (modifyCall p decline) with
       | Fulfilled _ =>
           (emits [Http (modifyCall p decline); RevalidateRecord] s0, Done)
       | Rejected e => (emits [Http (modifyCall p decline)] s0, Failed e)
       end.
Proof.
  intros T R.
  rewrite (shows_card p env s t rd BtnApprove T R),
    (shows_card p env s t rd BtnDecline T R).
  split; [apply approve_decline_in_column; auto|].
  split; [apply approve_decline_in_column; auto|].
  split; [reflexivity|]. split; [reflexivity|].
  split; apply run_modifyRequest.
Qed.

Lemma approve_decline_rendered_and_post_witness :
  shows (RequestItem {| request := filmRequest MediaRequestStatus.PENDING |}
                     asAnn
                     (initial {| request :=
                                   filmRequest MediaRequestStatus.PENDING |}))
        BtnApprove
  /\ shows (RequestItem {| request := filmRequest MediaRequestStatus.PENDING |}
                        asAnn
                        (initial {| request :=
                                      filmRequest MediaRequestStatus.PENDING |}))
           BtnDecline.
Proof.
  destruct (approve_decline_rendered_and_post
              {| request := filmRequest MediaRequestStatus.PENDING |} asAnn
              (initial {| request := filmRequest MediaRequestStatus.PENDING |})
              fightClub (filmRequest MediaRequestStatus.PENDING) offline
              (initial {| request := filmRequest MediaRequestStatus.PENDING |})
              eq_refl eq_refl) as (A & D & _).
  split; [apply A|apply D]; split; reflexivity.
Defined.

(** C2 as stated fails: when the POST is rejected, nothing is revalidated. *)
Lemma decline_rejected_no_revalidation :
  run offline
      (onClick {| request := filmRequest MediaRequestStatus.PENDING |} BtnDecline)
      (initial {| request := filmRequest MediaRequestStatus.PENDING |})
  = ({| isRetrying := false;
        showEditModal := false;
        requestData := Some (filmRequest MediaRequestStatus.PENDING);
        trace := [Http {| method := POST;
                          url := "/api/v1/request/12/decline" |}] |},
     Failed (axiosError "Network Error"))
  /\ ~ In RevalidateRecord
          (trace (fst (run offline
                           (onClick {| request :=
                                         filmRequest MediaRequestStatus.PENDING |}
                                    BtnDecline)
                           (initial {| request :=
                                         filmRequest MediaRequestStatus.PENDING |})))).
Proof.
  split; [vm_compute; reflexivity|].
  vm_compute. intros [H|[]]. discriminate.
Qed.


(* ===================================================================== *)
(** ** The error card *)
(* ===================================================================== *)

Lemma truthy_true mediaId :
  truthy mediaId = true <-> exists n, mediaId = Some n /\ n <> 0.
Proof.
  unfold truthy. destruct mediaId as [k|].
  - rewrite negb_true_iff, Z.eqb_neq. split.
    + intros H. exists k. auto.
    + intros [n [E H]]. injection E as <-. exact H.
  - split; [discriminate | intros [n [E _]]; discriminate].
Qed.




(* ===================================================================== *)
(** ** Retries never overlap *)
(* ===================================================================== *)

Lemma String_eqb_append_l (s a b : string) :
  String.eqb (s ++ a) (s ++ b) = String.eqb a b.
Proof.
  induction s as [|c s IH]; simpl; [reflexivity|].
  rewrite Ascii.eqb_refl. exact IH.
Qed.

Lemma retryCall_is_retry p : HttpCall_eqb (retryCall p) (retryCall p) = true.
Proof.
  unfold HttpCall_eqb. rewrite String.eqb_refl. reflexivity.
Qed.

Lemma modifyCall_not_retry p type :
  HttpCall_eqb (modifyCall p type) (retryCall p) = false.
Proof.
  unfold HttpCall_eqb, modifyCall, retryCall. cbn [method url Method_eqb andb].
  rewrite !String_eqb_append_l. destruct type; reflexivity.
Qed.

Lemma deleteCall_not_retry p :
  HttpCall_eqb (deleteCall p) (retryCall p) = false.
Proof. reflexivity. Qed.

(** What a click starts, control by control. *)
Lemma exec_onClick p b s :
  match b with
  | BtnRetry _ =>
      exists s' k, exec (onClick p b) s = (s', Suspended (retryCall p) k)
                   /\ isRetrying s' = true
  | BtnEdit =>
      exists s', exec (onClick p b) s = (s', Settled Done)
                 /\ isRetrying s' = isRetrying s
  | _ =>
      exists s' c k, exec (onClick p b) s = (s', Suspended c k)
                     /\ HttpCall_eqb c (retryCall p) = false
                     /\ isRetrying s' = isRetrying s
  end.
Proof.
  destruct b; cbn [onClick].
  - do 2 eexists. split; reflexivity.
  - do 3 eexists. split; [reflexivity|]. split; [apply deleteCall_not_retry|reflexivity].
  - do 3 eexists. split; [reflexivity|]. split; [apply modifyCall_not_retry|reflexivity].
  - do 3 eexists. split; [reflexivity|]. split; [apply modifyCall_not_retry|reflexivity].
  - eexists. split; reflexivity.
  - do 3 eexists. split; [reflexivity|]. split; [apply deleteCall_not_retry|reflexivity].
Qed.

(** What a suspended handler does once its call settles: the retry
    handler ends with the flag cleared, every other one ends without
    touching the flag. *)
Lemma fromHandler_settles p c k :
  fromHandler p (c, k) ->
  (HttpCall_eqb c (retryCall p) = true
   /\ forall o s, exists s' r, exec (k o) s = (s', Settled r)
                               /\ isRetrying s' = false)
  \/ (HttpCall_eqb c (retryCall p) = false
      /\ forall o s, exists s' r, exec (k o) s = (s', Settled r)
                                  /\ isRetrying s' = isRetrying s).
Proof.
  intros [b [s0 H]]. cbn [fst snd] in H.
  destruct b; cbn in H; try discriminate;
    injection H as Hc Hk; subst c k.
  - left. split; [apply retryCall_is_retry|].
    intros [r|e] s; do 2 eexists; split; reflexivity.
  - right. split; [apply deleteCall_not_retry|].
    intros [r|e] s; do 2 eexists; split; reflexivity.
  - right. split; [apply modifyCall_not_retry|].
    intros [r|e] s; do 2 eexists; split; reflexivity.
  - right. split; [apply modifyCall_not_retry|].
    intros [r|e] s; do 2 eexists; split; reflexivity.
  - right. split; [apply deleteCall_not_retry|].
    intros [r|e] s; do 2 eexists; split; reflexivity.
Qed.

Lemma filter_without_nth {A : Type} (f : A -> bool) (l : list A) i e :
  nth_error l i = Some e ->
  List.length (List.filter f l)
  = (List.length (List.filter f (firstn i l ++ skipn (S i) l))
     + if f e then 1 else 0)%nat.
Proof.
  revert i. induction l as [|a l IH]; intros [|i] H; try discriminate.
  - injection H as ->. cbn [firstn skipn app List.filter].
    destruct (f e); cbn [List.length]; lia.
  - cbn [nth_error] in H. specialize (IH i H).
    cbn [firstn skipn app List.filter] in *.
    destruct (f a); cbn [List.length]; lia.
Qed.

Lemma Forall_without_nth {A : Type} (P : A -> Prop) (l : list A) i :
  Forall P l -> Forall P (firstn i l ++ skipn (S i) l).
Proof.
  intros H. revert i.
  induction H as [|a l Ha Hl IH]; intros [|i];
    cbn [firstn skipn app]; try constructor; auto.
Qed.

(** A retry button in the view carries the current flag as [disabled]. *)
Lemma rendered_retry p env s d :
  rendered (BtnRetry d) (RequestItem p env s) = true -> d = isRetrying s.
Proof.
  unfold rendered, RequestItem.
  destruct (title env) as [t|], (error env), (requestData s) as [rd|];
    try discriminate; cbn [actions];
    (destruct (in_dec ActionButton_eq_dec (BtnRetry d)
                      (renderActions env (isRetrying s) rd)) as [H|H];
     [|discriminate]);
    intros _; apply in_renderActions in H;
    destruct H as [[_ E]|[[_ E]|[[_ [E|E]]|[[_ E]|[_ E]]]]];
    congruence.
Qed.

Lemma mount_consistent p : consistent p (mount p).
Proof.
  split; [constructor|reflexivity].
Qed.

Section RetryOverlap.

(** [Button] is not among the sources: its part in the argument is that,
    rendered with [disabled], it hands no click to its [onClick]. *)
Variable dispatches : bool -> bool.
Hypothesis disabled_blocks : dispatches true = false.

Variable p : Props.
Variable env : Env.

Lemma step_consistent l ev :
  consistent p l -> consistent p (step dispatches p env l ev).
Proof.
  pose proof disabled_blocks as Hd.
  intros [HF HC]. destruct ev as [b|i o|rd]; cbn [step].
  - destruct (rendered b (RequestItem p env (now l))) eqn:R;
      [|split; assumption].
    destruct (dispatches (disabledOf b)) eqn:D; [|split; assumption].
    cbn [andb]. unfold launch.
    pose proof (exec_onClick p b (now l)) as E.
    destruct b.
    2-4, 6:
      destruct E as (s' & c & k & E & Hc & Hs'); rewrite E; split;
      [ cbn [inflight]; apply Forall_app; split; [exact HF|];
        constructor; [|constructor];
        match type of E with
        | context [onClick p ?b] => exists b, (now l)
        end;
        rewrite E; reflexivity
      | unfold retriesInFlight in *; cbn [inflight now];
        rewrite filter_app, length_app, HC, Hs';
        cbn [List.filter fst]; rewrite Hc; cbn [List.length]; lia ].
    + apply rendered_retry in R. cbn [disabledOf] in D.
      assert (isRetrying (now l) = false) as Hflag
          by (destruct disabled; congruence).
      destruct E as (s' & k & E & Hs'). rewrite E. split.
      * cbn [inflight]. apply Forall_app. split; [exact HF|].
        constructor; [|constructor].
        exists (BtnRetry disabled), (now l). rewrite E. reflexivity.
      * unfold retriesInFlight in *. cbn [inflight now].
        rewrite filter_app, length_app, HC, Hflag, Hs'.
        cbn [List.filter fst]. rewrite retryCall_is_retry. reflexivity.
    + destruct E as (s' & E & Hs'). rewrite E. split.
      * exact HF.
      * unfold retriesInFlight in *. cbn [inflight now].
        rewrite HC, Hs'. reflexivity.
  - destruct (nth_error (inflight l) i) as [[c k]|] eqn:N;
      [|split; assumption].
    assert (fromHandler p (c, k)) as Hk.
    { eapply Forall_forall; [exact HF|]. eapply nth_error_In; eauto. }
    unfold retriesInFlight in HC.
    rewrite (filter_without_nth _ _ _ _ N) in HC. cbn [fst] in HC.
    unfold launch.
    destruct (fromHandler_settles p c k Hk) as [[Hc Hs]|[Hc Hs]];
      destruct (Hs o (now l)) as (s' & r & E & Hs'); rewrite E;
      (split; [apply Forall_without_nth; exact HF|]);
      unfold retriesInFlight; cbn [inflight now];
      rewrite Hc in HC; rewrite Hs';
      destruct (isRetrying (now l)); lia.
  - split; [exact HF|exact HC].
Qed.

Lemma play_consistent evs : consistent p (play dispatches p env evs).
Proof.
  unfold play.
  generalize (mount_consistent p). generalize (mount p).
  induction evs as [|ev evs IH]; intros l Hl; cbn [fold_left].
  - exact Hl.
  - apply IH. apply step_consistent. exact Hl.
Qed.

(** C8. The Retry button is rendered with [disabled] equal to the
    in-progress flag, so it is disabled while the flag is set.  Provided a
    disabled [Button] hands no click to its [onClick], a click on Retry
    while the flag is set starts nothing, and after any sequence of clicks,
    settled calls and record updates at most one retry call of the card is
    in flight: exactly one while the flag is set, none otherwise. *)
Theorem retry_never_overlaps (evs : list Event) :
  (forall retrying rd d,
      In (BtnRetry d) (renderActions env retrying rd) -> d = retrying)
  /\ (forall l d,
         isRetrying (now l) = true ->
         step dispatches p env l (Click (BtnRetry d)) = l)
  /\ (retriesInFlight p (play dispatches p env evs) <= 1)%nat
  /\ (isRetrying (now (play dispatches p env evs)) = true <->
      retriesInFlight p (play dispatches p env evs) = 1%nat).
Proof.
  split; [|split].
  - intros retrying rd d H. apply in_renderActions in H.
    destruct H as [[_ E]|[[_ E]|[[_ [E|E]]|[[_ E]|[_ E]]]]]; congruence.
  - intros l d Hflag. cbn [step disabledOf].
    destruct (rendered (BtnRetry d) (RequestItem p env (now l))) eqn:R;
      [|reflexivity].
    apply rendered_retry in R. rewrite R, Hflag, disabled_blocks. reflexivity.
  - destruct (play_consistent evs) as [_ HC].
    rewrite HC. destruct (isRetrying (now (play dispatches p env evs)));
      split; try lia; split; congruence.
Qed.

End RetryOverlap.

Lemma retry_never_overlaps_witness :
  negb true = false
  /\ (retriesInFlight
        {| request := filmRequest MediaRequestStatus.APPROVED |}
        (play negb {| request := filmRequest MediaRequestStatus.APPROVED |}
              asAnn
              [Click (BtnRetry false); Click (BtnRetry true);
               Click (BtnRetry false)])
      <= 1)%nat.
Proof.
  split; [reflexivity|].
  apply (retry_never_overlaps
           negb (eq_refl : negb true = false)
           {| request := filmRequest MediaRequestStatus.APPROVED |} asAnn).
Defined.

(* ===================================================================== *)
(** ** Endpoints and cache keys *)
(* ===================================================================== *)

Lemma append_inj_l (s a b : string) : s ++ a = s ++ b -> a = b.
Proof.
  induction s as [|c s IH]; simpl; intros H; [exact H|].
  injection H as H. exact (IH H).
Qed.

Lemma occurs_uint c d :
  occurs c (NilEmpty.string_of_uint d) = true ->
  In c ["0"; "1"; "2"; "3"; "4"; "5"; "6"; "7"; "8"; "9"]%char.
Proof.
  induction d; cbn [NilEmpty.string_of_uint occurs]; intros H;
    try discriminate;
    apply orb_true_iff in H; destruct H as [H|H]; auto;
    apply Ascii.eqb_eq in H; subst c; simpl; tauto.
Qed.

(** An id in a template literal is made of digits and at most a sign. *)
Lemma occurs_num c n :
  occurs c (num n) = true ->
  In c ["-"; "0"; "1"; "2"; "3"; "4"; "5"; "6"; "7"; "8"; "9"]%char.
Proof.
  unfold num, NilZero.string_of_int, NilZero.string_of_uint.
  assert (U : forall d,
             occurs c match d with
                      | Decimal.Nil => "0"
                      | _ => NilEmpty.string_of_uint d
                      end = true ->
             In c ["0"; "1"; "2"; "3"; "4"; "5"; "6"; "7"; "8"; "9"]%char).
  { intros d H.
    assert (E : match d with
                | Decimal.Nil => "0"
                | _ => NilEmpty.string_of_uint d
                end = "0"
                \/ match d with
                   | Decimal.Nil => "0"
                   | _ => NilEmpty.string_of_uint d
                   end = NilEmpty.string_of_uint d)
      by (destruct d; auto).
    destruct E as [E|E]; rewrite E in H.
    - cbn [occurs] in H. rewrite orb_false_r in H.
      apply Ascii.eqb_eq in H. subst c. simpl. tauto.
    - apply (occurs_uint c d H). }
  destruct (Z.to_int n) as [d|d]; intros H.
  - right. apply (U d). exact H.
  - cbn [occurs] in H. apply orb_true_iff in H. destruct H as [H|H].
    + apply Ascii.eqb_eq in H. left. exact H.
    + right. apply (U d). exact H.
Qed.

Lemma num_no_slash n : occurs "/" (num n) = false.
Proof.
  destruct (occurs "/" (num n)) eqn:E; [|reflexivity].
  apply occurs_num in E. simpl in E.
  repeat (destruct E as [E|E]; [discriminate|]). destruct E.
Qed.

(** Ids print differently when they differ. *)
Lemma num_inj a b : num a = num b -> a = b.
Proof.
  unfold num. intros H. apply DecimalZ.to_int_inj.
  assert (P : forall n, NilZero.int_of_string
                          (NilZero.string_of_int (Z.to_int n))
                        = Some (Z.to_int n)).
  { intros n. apply NilZero.isi; destruct n; cbn [Z.to_int];
      try discriminate; intros [= E];
      apply (DecimalPos.Unsigned.to_uint_nonnil _ E). }
  pose proof (P a) as Pa. rewrite H, P in Pa. congruence.
Qed.

(** Two strings free of ["/"] that are followed by a ["/"] each end at
    the same place. *)
Lemma split_at_slash a b x y :
  occurs "/" a = false -> occurs "/" b = false ->
  a ++ String "/" x = b ++ String "/" y -> a = b /\ x = y.
Proof.
  revert b. induction a as [|c a IH]; intros [|d b] Ha Hb H;
    cbn [append occurs] in *.
  - injection H as H. auto.
  - injection H as Hc _. subst d. discriminate.
  - injection H as Hc _. subst c. discriminate.
  - injection H as Hc H. subst d.
    apply orb_false_iff in Ha. apply orb_false_iff in Hb.
    destruct (IH b (proj2 Ha) (proj2 Hb) H) as [-> ->]. auto.
Qed.

Lemma no_slash_not_split a b y :
  occurs "/" a = false -> a <> b ++ String "/" y.
Proof.
  intros Ha H. subst a. revert Ha.
  induction b as [|d b IH]; cbn [append occurs]; intros Ha.
  - discriminate.
  - apply orb_false_iff in Ha. exact (IH (proj2 Ha)).
Qed.

Lemma awaits_onClick p b :
  awaits (onClick p b)
  = match b with
    | BtnRetry _ => Some (retryCall p)
    | BtnDelete | BtnCancel => Some (deleteCall p)
    | BtnApprove => Some (modifyCall p approve)
    | BtnDecline => Some (modifyCall p decline)
    | BtnEdit => None
    end.
Proof. destruct b; reflexivity. Qed.

Lemma post_call_inj a b x y :
  {| method := POST; url := "/api/v1/request/" ++ num a ++ "/" ++ x |}
  = {| method := POST; url := "/api/v1/request/" ++ num b ++ "/" ++ y |} ->
  a = b /\ x = y.
Proof.
  intros H. apply (f_equal url) in H. cbn [url] in H.
  apply append_inj_l in H.
  apply (split_at_slash _ _ _ _ (num_no_slash a) (num_no_slash b)) in H.
  destruct H as [Hn Hs]. apply num_inj in Hn. auto.
Qed.

Lemma deleteCall_inj p p' :
  deleteCall p = deleteCall p' ->
  MediaRequest.id (request p) = MediaRequest.id (request p').
Proof.
  intros H. apply (f_equal url) in H. cbn [url deleteCall] in H.
  apply append_inj_l in H. apply num_inj in H. exact H.
Qed.

(** X1. Two clicks, on any two cards, await the same call only when the
    cards hold the same request id and the clicks run the same handler;
    and no control of the card calls the media endpoint of the error
    card. *)
Theorem card_endpoints_unambiguous
        (p p' : Props) (b b' : ActionButton) (c : HttpCall) :
  awaits (onClick p b) = Some c ->
  (awaits (onClick p' b') = Some c ->
   MediaRequest.id (request p) = MediaRequest.id (request p')
   /\ onClick p b = onClick p' b')
  /\ (forall mediaId, c <> deleteMediaCall mediaId).
Proof.
  rewrite !awaits_onClick. intros E1. split.
  - intros E2.
    destruct b, b'; try discriminate;
      rewrite <- E2 in E1; clear E2;
      (assert (H : forall x y : HttpCall, Some x = Some y -> x = y)
        by (intros x y [= E]; exact E));
      apply H in E1; clear H;
      try (exfalso; apply (f_equal method) in E1; discriminate E1);
      try (pose proof (deleteCall_inj _ _ E1) as Hn;
           split; [exact Hn|];
           cbn [onClick]; unfold deleteRequest; rewrite E1; reflexivity);
      pose proof (post_call_inj _ _ _ _ E1) as [Hn Hs];
      try discriminate Hs;
      (split; [exact Hn|]);
      cbn [onClick]; unfold retryRequest, modifyRequest;
      rewrite E1; reflexivity.
  - intros mediaId H. subst c.
    destruct b; try discriminate;
      (assert (H : forall x y : HttpCall, Some x = Some y -> x = y)
        by (intros x y [= E]; exact E));
      apply H in E1; clear H;
      apply (f_equal url) in E1;
      cbn [url retryCall modifyCall deleteCall deleteMediaCall] in E1;
      cbn [append] in E1; discriminate E1.
Qed.

Lemma card_endpoints_unambiguous_witness :
  awaits (onClick {| request := filmRequest MediaRequestStatus.APPROVED |}
                  BtnDelete)
  = Some (deleteCall {| request := filmRequest MediaRequestStatus.APPROVED |})
  /\ onClick {| request := filmRequest MediaRequestStatus.APPROVED |} BtnDelete
     = onClick {| request := filmRequest MediaRequestStatus.PENDING |} BtnCancel
  /\ deleteCall {| request := filmRequest MediaRequestStatus.APPROVED |}
     <> deleteMediaCall (Some 12).
Proof.
  split; [reflexivity|].
  destruct (card_endpoints_unambiguous
              {| request := filmRequest MediaRequestStatus.APPROVED |}
              {| request := filmRequest MediaRequestStatus.PENDING |}
              BtnDelete BtnCancel
              (deleteCall {| request := filmRequest MediaRequestStatus.APPROVED |})
              eq_refl) as [Same Other].
  split; [apply Same; reflexivity | apply Other].
Defined.

(** X2. The cache keys never collide: two cards share the key of the
    record fetch exactly when they hold the same request id, share the
    title endpoint exactly when their requests have the same media type and
    the same tmdb id, and a record key is never a title endpoint.  The
    title fetch has no key exactly while the card has not been in view,
    and the DELETE of a request goes to the record's own key. *)
Theorem swr_keys_unambiguous (p p' : Props) (inView : bool) :
  (recordKey p = recordKey p' <->
   MediaRequest.id (request p) = MediaRequest.id (request p'))
  /\ (titleUrl p = titleUrl p' <->
      MediaRequest.type (request p) = MediaRequest.type (request p')
      /\ Media.tmdbId (MediaRequest.media (request p))
         = Media.tmdbId (MediaRequest.media (request p')))
  /\ recordKey p <> titleUrl p'
  /\ (titleKey inView p = None <-> inView = false)
  /\ url (deleteCall p) = recordKey p.
Proof.
  split; [|split; [|split; [|split]]].
  - unfold recordKey. split.
    + intros H. apply append_inj_l in H. apply num_inj in H. exact H.
    + intros ->. reflexivity.
  - unfold titleUrl. split.
    + destruct (MediaType.eq_dec (MediaRequest.type (request p)) MediaType.movie)
        as [T|T],
        (MediaType.eq_dec (MediaRequest.type (request p')) MediaType.movie)
        as [T'|T']; intros H.
      * apply append_inj_l in H. apply num_inj in H. split; congruence.
      * cbn [append] in H. discriminate H.
      * cbn [append] in H. discriminate H.
      * apply append_inj_l in H. apply num_inj in H. split; [|exact H].
        destruct (MediaRequest.type (request p)),
          (MediaRequest.type (request p')); congruence.
    + intros [-> ->]. reflexivity.
  - unfold recordKey, titleUrl.
    destruct (MediaType.eq_dec (MediaRequest.type (request p')) MediaType.movie);
      cbn [append]; discriminate.
  - unfold titleKey. destruct inView; split; congruence.
  - reflexivity.
Qed.

(** X3. The links of the card agree: the manage link of the failed badge
    is the link to the title page followed by [?manage=1], and the title
    endpoint is [/api/v1] followed by the title link of the request. *)
Theorem title_links_agree (p : Props) (rd : MediaRequest.t) :
  match renderStatus rd with
  | FailedBadge href => href = titleLink rd ++ "?manage=1"
  | _ => True
  end
  /\ titleUrl p = "/api/v1" ++ titleLink (request p)
  /\ (titleLink rd = titleLink (request p) <->
      MediaRequest.type rd = MediaRequest.type (request p)
      /\ Media.tmdbId (MediaRequest.media rd)
         = Media.tmdbId (MediaRequest.media (request p))).
Proof.
  split; [|split].
  - unfold renderStatus, titleLink.
    destruct (isStatus rd MediaRequestStatus.DECLINED); [exact I|].
    destruct (isUnknown (selectedStatus rd)); [|exact I].
    destruct (MediaRequest.type rd); cbn [MediaType.to_string append];
      destruct (MediaType.eq_dec _ _) as [E|E]; try congruence;
      cbn [append]; reflexivity.
  - unfold titleUrl, titleLink.
    destruct (MediaType.eq_dec _ _); cbn [append]; reflexivity.
  - unfold titleLink. split.
    + destruct (MediaType.eq_dec (MediaRequest.type rd) MediaType.movie)
        as [T|T],
        (MediaType.eq_dec (MediaRequest.type (request p)) MediaType.movie)
        as [T'|T']; intros H.
      * apply append_inj_l in H. apply num_inj in H. split; congruence.
      * cbn [append] in H. discriminate H.
      * cbn [append] in H. discriminate H.
      * apply append_inj_l in H. apply num_inj in H. split; [|exact H].
        destruct (MediaRequest.type rd), (MediaRequest.type (request p));
          congruence.
    + intros [-> ->]. reflexivity.
Qed.

(* ===================================================================== *)
(** ** Poster, backdrop and year *)
(* ===================================================================== *)

Lemma whenTruthy_None s : whenTruthy s = None <-> s = None \/ s = Some "".
Proof.
  destruct s as [[|c s]|]; cbn [whenTruthy]; split; auto;
    try discriminate; intros [H|H]; discriminate H.
Qed.

Lemma whenTruthy_Some s path :
  whenTruthy s = Some path -> s = Some path /\ path <> "".
Proof.
  destruct s as [[|c s]|]; cbn [whenTruthy]; intros [= <-].
  split; [reflexivity|discriminate].
Qed.

Lemma append_nonempty_r (s t : string) : t <> "" -> s ++ t <> s.
Proof.
  intros Ht H. apply Ht. apply (append_inj_l s).
  rewrite H. clear. induction s; simpl; congruence.
Qed.

(** X4. The poster falls back to the not-found image exactly when the
    title has no poster path or an empty one, and otherwise its address is
    the image host followed by a non-empty path; the backdrop is left out
    in exactly the same two cases, and its address is never the bare
    host. *)
Theorem poster_and_backdrop (t : TitleDetails) :
  (posterSrc t = "/images/overseerr_poster_not_found.png" <->
   posterPathOf t = None \/ posterPathOf t = Some "")
  /\ posterSrc t <> "https://image.tmdb.org/t/p/w600_and_h900_bestv2"
  /\ (renderBackdrop t = None <->
      backdropPathOf t = None \/ backdropPathOf t = Some "")
  /\ renderBackdrop t
     <> Some "https://image.tmdb.org/t/p/w1920_and_h800_multi_faces/".
Proof.
  unfold posterSrc, renderBackdrop.
  split; [|split; [|split]].
  - rewrite <- whenTruthy_None.
    destruct (whenTruthy (posterPathOf t)) as [path|]; split; auto;
      try discriminate.
  - destruct (whenTruthy (posterPathOf t)) as [path|] eqn:E; [|discriminate].
    apply whenTruthy_Some in E. destruct E as [_ E].
    apply append_nonempty_r. exact E.
  - rewrite <- whenTruthy_None.
    destruct (whenTruthy (backdropPathOf t)); cbn [option_map];
      split; auto; discriminate.
  - destruct (whenTruthy (backdropPathOf t)) as [path|] eqn:E;
      cbn [option_map]; [|discriminate].
    apply whenTruthy_Some in E. destruct E as [_ E].
    intros H. apply (f_equal (fun o => match o with
                                       | Some a => a
                                       | None => ""
                                       end)) in H.
    revert H. apply append_nonempty_r. exact E.
Qed.

Lemma substring_is_prefix n s :
  exists rest, s = substring 0 n s ++ rest
               /\ String.length (substring 0 n s) = Nat.min n (String.length s).
Proof.
  revert s. induction n as [|n IH]; intros [|c s]; cbn [substring].
  - exists "". split; reflexivity.
  - exists (String c s). split; reflexivity.
  - exists "". split; reflexivity.
  - destruct (IH s) as (rest & E & L). exists rest. split.
    + cbn [append]. rewrite <- E. reflexivity.
    + cbn [String.length]. rewrite L. reflexivity.
Qed.

(** X5. The year shown on the card is a prefix of the title's date (the
    release date of a film, the first air date of a show) of length 4, or
    of the whole date when that is shorter; it is missing exactly when the
    date is. *)
Theorem title_year_is_date_prefix (t : TitleDetails) :
  match titleYear t,
        match t with
        | Movie m => MovieDetails.releaseDate m
        | Tv tv => TvDetails.firstAirDate tv
        end
  with
  | Some y, Some date =>
      (exists rest, date = y ++ rest)
      /\ String.length y = Nat.min 4 (String.length date)
  | None, None => True
  | _, _ => False
  end.
Proof.
  unfold titleYear.
  destruct (match t with
            | Movie m => MovieDetails.releaseDate m
            | Tv tv => TvDetails.firstAirDate tv
            end) as [date|]; cbn [option_map]; [|exact I].
  destruct (substring_is_prefix 4 date) as (rest & E & L).
  split; [exists rest; exact E|exact L].
Qed.

(* ===================================================================== *)
(** ** The error card's delete *)
(* ===================================================================== *)

(** X6. Whenever the error card offers its delete action, the media id is
    a number other than 0, and the action awaits one DELETE whose address
    is [/api/v1/media/] followed by that number: the address never ends in
    [undefined], and it is never an endpoint of a request. *)
Theorem media_delete_names_an_id
        (env : Env) (mediaId : option Z) (p : Props) :
  In BtnDeleteMedia (errorButtons (RequestItemError env mediaId)) ->
  exists n,
    mediaId = Some n /\ n <> 0
    /\ awaits (RequestItemError_deleteRequest mediaId)
       = Some {| method := DELETE; url := "/api/v1/media/" ++ num n |}
    /\ "/api/v1/media/" ++ num n <> "/api/v1/media/undefined"
    /\ "/api/v1/media/" ++ num n <> url (deleteCall p).
Proof.
  unfold RequestItemError. cbn [errorButtons]. intros H.
  apply in_when in H. destruct H as [H _].
  apply andb_true_iff in H. destruct H as [_ H].
  apply truthy_true in H. destruct H as (n & -> & Hn).
  exists n. split; [reflexivity|]. split; [exact Hn|].
  split; [reflexivity|]. split.
  - intros E.
    change "/api/v1/media/undefined" with ("/api/v1/media/" ++ "undefined") in E.
    apply append_inj_l in E.
    assert (O : occurs "u" (num n) = true) by (rewrite E; reflexivity).
    apply occurs_num in O. simpl in O.
    repeat (destruct O as [O|O]; [discriminate|]). destruct O.
  - cbn [url deleteCall append]. discriminate.
Qed.

Lemma media_delete_names_an_id_witness :
  exists n,
    Some 3 = Some n /\ n <> 0
    /\ awaits (RequestItemError_deleteRequest (Some 3))
       = Some {| method := DELETE; url := "/api/v1/media/" ++ num n |}
    /\ "/api/v1/media/" ++ num n <> "/api/v1/media/undefined"
    /\ "/api/v1/media/" ++ num n
       <> url (deleteCall {| request := filmRequest MediaRequestStatus.PENDING |}).
Proof.
  apply (media_delete_names_an_id asAnn (Some 3)).
  left. reflexivity.
Defined.

(* ===================================================================== *)
(** ** What a click leaves behind *)
(* ===================================================================== *)

Lemma run_retryRequest p net s :
  run net (retryRequest p) s
  = match net (retryCall p) with
    | Fulfilled result =>
        ({| isRetrying := false;
            showEditModal := showEditModal s;
            requestData := Some (data result);
            trace := (trace s ++ [Http (retryCall p); RevalidateRecord])%list |},
         Done)
    | Rejected _ =>
        ({| isRetrying := false;
            showEditModal := showEditModal s;
            requestData := requestData s;
            trace := (trace s ++ [Http (retryCall p); Notify failedRetryToast])%list |},
         Done)
    end.
Proof.
  unfold retryRequest, await.
  cbn [run try_catch try_finally perform].
  destruct (net (retryCall p)) as [r|e];
    cbn [run try_catch try_finally seq perform emits
         isRetrying showEditModal requestData trace];
    rewrite <- app_assoc; reflexivity.
Qed.

Lemma run_deleteRequest p net s :
  run net (deleteRequest p) s
  = match net (deleteCall p) with
    | Fulfilled _ => (emits [Http (deleteCall p); RevalidateList] s, Done)
    | Rejected e => (emits [Http (deleteCall p)] s, Failed e)
    end.
Proof.
  unfold deleteRequest, await. cbn [run].
  destruct (net (deleteCall p)) as [r|e]; cbn [run perform]; [|reflexivity].
  rewrite emits_emits. reflexivity.
Qed.

(** What running the handler of a control adds to the trace, and how the
    handler ends. *)
Lemma run_onClick p b net s :
  exists es,
    trace (fst (run net (onClick p b) s)) = (trace s ++ es)%list
    /\ (es, snd (run net (onClick p b) s))
       = match b with
         | BtnRetry _ =>
             match net (retryCall p) with
             | Fulfilled _ => ([Http (retryCall p); RevalidateRecord], Done)
             | Rejected _ =>
                 ([Http (retryCall p); Notify failedRetryToast], Done)
             end
         | BtnDelete | BtnCancel =>
             match net (deleteCall p) with
             | Fulfilled _ => ([Http (deleteCall p); RevalidateList], Done)
             | Rejected e => ([Http (deleteCall p)], Failed e)
             end
         | BtnApprove =>
             match net (modifyCall p approve) with
             | Fulfilled _ =>
                 ([Http (modifyCall p approve); RevalidateRecord], Done)
             | Rejected e => ([Http (modifyCall p approve)], Failed e)
             end
         | BtnDecline =>
             match net (modifyCall p decline) with
             | Fulfilled _ =>
                 ([Http (modifyCall p decline); RevalidateRecord], Done)
             | Rejected e => ([Http (modifyCall p decline)], Failed e)
             end
         | BtnEdit => ([], Done)
         end.
Proof.
  destruct b; cbn [onClick].
  - rewrite run_retryRequest. destruct (net (retryCall p));
      eexists; split; reflexivity.
  - rewrite run_deleteRequest. destruct (net (deleteCall p));
      eexists; split; reflexivity.
  - rewrite run_modifyRequest. destruct (net (modifyCall p approve));
      eexists; split; reflexivity.
  - rewrite run_modifyRequest. destruct (net (modifyCall p decline));
      eexists; split; reflexivity.
  - exists []. cbn [run perform fst snd trace]. rewrite app_nil_r.
    split; reflexivity.
  - rewrite run_deleteRequest. destruct (net (deleteCall p));
      eexists; split; reflexivity.
Qed.

(** X7. Running the handler of a control to its end only appends to the
    trace, and what it appends holds exactly one HTTP call, the one the
    handler awaits, whatever the outcome; the Edit control issues none.
    No handler calls twice or calls again after a failure. *)
Theorem click_issues_one_call
        (p : Props) (b : ActionButton) (net : HttpCall -> Outcome) (s : State) :
  exists es,
    trace (fst (run net (onClick p b) s)) = (trace s ++ es)%list
    /\ List.filter isHttp es
       = match awaits (onClick p b) with
         | Some c => [Http c]
         | None => []
         end.
Proof.
  destruct (run_onClick p b net s) as (es & T & E).
  exists es. split; [exact T|]. rewrite awaits_onClick.
  destruct b;
    repeat match type of E with
      | context [net ?c] => destruct (net c)
      end;
    apply (f_equal fst) in E; cbn [fst] in E; subst es; reflexivity.
Qed.

(** X8. A failed call surfaces in one of two ways, never both.  The retry
    handler turns it into a toast and still fulfils; the handlers of
    Delete, Cancel, Approve and Decline show no toast and reject with the
    error of the call.  Without a failed call no handler shows a toast or
    rejects, and the failed-retry toast is the only toast there is. *)
Theorem failure_is_toast_or_rejection
        (p : Props) (b : ActionButton) (net : HttpCall -> Outcome) (s : State) :
  exists es,
    trace (fst (run net (onClick p b) s)) = (trace s ++ es)%list
    /\ (existsb isNotify es = true <->
        (exists d, b = BtnRetry d) /\ exists e, net (retryCall p) = Rejected e)
    /\ (forall e,
           snd (run net (onClick p b) s) = Failed e <->
           (forall d, b <> BtnRetry d)
           /\ exists c, awaits (onClick p b) = Some c /\ net c = Rejected e)
    /\ (In (Notify failedRetryToast) es \/ existsb isNotify es = false).
Proof.
  destruct (run_onClick p b net s) as (es & T & E).
  exists es. split; [exact T|]. rewrite awaits_onClick.
  assert (Es : es = fst (es, snd (run net (onClick p b) s))) by reflexivity.
  assert (Ec : snd (run net (onClick p b) s)
               = snd (es, snd (run net (onClick p b) s))) by reflexivity.
  rewrite E in Es, Ec. clear E T.
  destruct b;
    repeat match type of Es with
      | context [net ?c] => destruct (net c) eqn:N
      end;
    cbn [fst snd] in Es, Ec; subst es; rewrite Ec;
    cbn [existsb isNotify orb].
  (* fulfilled calls and Edit: no toast, no rejection *)
  all: try (split; [split; [discriminate|intros [[d Hd] [e' He]]; congruence]|];
            split; [intros e'; split;
                    [discriminate
                    |intros [Hb (c & Hc & Hn)];
                     try (exfalso; apply (Hb disabled); reflexivity);
                     try discriminate Hc;
                     injection Hc as <-; congruence]
                   |right; reflexivity]).
  (* a rejected retry: the toast *)
  1: { split; [split; [intros _; split; eexists; reflexivity|reflexivity]|].
       split; [|left; simpl; tauto].
       intros e'; split; [discriminate|].
       intros [Hb _]. exfalso. apply (Hb disabled). reflexivity. }
  (* a rejected delete, approve, decline or cancel: the rejection *)
  all: split; [split; [discriminate|intros [[d Hd] _]; discriminate]|];
    split; [|right; reflexivity];
    intros e'; split;
    [intros [= <-]; split;
     [intros d; discriminate|eexists; split; [reflexivity|exact N]]
    |intros [_ (c & Hc & Hn)]; injection Hc as <-; congruence].
Qed.

(** The view depends on the state through the flag, the modal switch and
    the record only. *)
Lemma RequestItem_ext p env s s' :
  isRetrying s' = isRetrying s ->
  showEditModal s' = showEditModal s ->
  requestData s' = requestData s ->
  RequestItem p env s' = RequestItem p env s.
Proof.
  intros F M R. unfold RequestItem, mediaIdOf. rewrite F, M, R. reflexivity.
Qed.

(** X9. Delete and Cancel run one and the same handler, and the handlers
    of Delete, Cancel, Approve and Decline change nothing the card is
    rendered from: flag, modal switch and record are as before, on success
    and on failure, so the card looks the same until fresh data arrives.
    Approve and Decline ask for the record only, Delete and Cancel for the
    list only, and only after a successful call. *)
Theorem decisions_leave_the_card
        (p : Props) (env : Env) (b : ActionButton)
        (net : HttpCall -> Outcome) (s : State) :
  In b [BtnDelete; BtnApprove; BtnDecline; BtnCancel] ->
  onClick p BtnDelete = onClick p BtnCancel
  /\ RequestItem p env (fst (run net (onClick p b) s)) = RequestItem p env s
  /\ requestData (fst (run net (onClick p b) s)) = requestData s
  /\ exists c,
       awaits (onClick p b) = Some c
       /\ trace (fst (run net (onClick p b) s))
          = (trace s
             ++ Http c
             :: match net c, b with
                | Rejected _, _ => []
                | Fulfilled _, (BtnApprove | BtnDecline) => [RevalidateRecord]
                | Fulfilled _, _ => [RevalidateList]
                end)%list.
Proof.
  intros Hb. split; [reflexivity|].
  assert (K : isRetrying (fst (run net (onClick p b) s)) = isRetrying s
              /\ showEditModal (fst (run net (onClick p b) s)) = showEditModal s
              /\ requestData (fst (run net (onClick p b) s)) = requestData s
              /\ exists c,
                  awaits (onClick p b) = Some c
                  /\ trace (fst (run net (onClick p b) s))
                     = (trace s
                        ++ Http c
                        :: match net c, b with
                           | Rejected _, _ => []
                           | Fulfilled _, (BtnApprove | BtnDecline) =>
                               [RevalidateRecord]
                           | Fulfilled _, _ => [RevalidateList]
                           end)%list).
  { rewrite awaits_onClick.
    cbn [In] in Hb. destruct Hb as [<-|[<-|[<-|[<-|[]]]]]; cbn [onClick];
      rewrite ?run_deleteRequest, ?run_modifyRequest;
      match goal with
      | |- context [net ?c] => destruct (net c) eqn:N
      end;
      cbn [fst emits isRetrying showEditModal requestData trace];
      repeat split; eexists; (split; [reflexivity|]); rewrite N; reflexivity. }
  destruct K as (F & M & R & T).
  split; [apply RequestItem_ext; assumption|]. split; assumption.
Qed.

Lemma decisions_leave_the_card_witness :
  RequestItem {| request := filmRequest MediaRequestStatus.PENDING |} asAnn
    (fst (run offline
              (onClick {| request := filmRequest MediaRequestStatus.PENDING |}
                       BtnApprove)
              (initial {| request := filmRequest MediaRequestStatus.PENDING |})))
  = RequestItem {| request := filmRequest MediaRequestStatus.PENDING |} asAnn
      (initial {| request := filmRequest MediaRequestStatus.PENDING |}).
Proof.
  apply (decisions_leave_the_card
           {| request := filmRequest MediaRequestStatus.PENDING |} asAnn
           BtnApprove offline
           (initial {| request := filmRequest MediaRequestStatus.PENDING |})).
  right. left. reflexivity.
Defined.

(** X10. What the card shows after a retry has run, with the title
    loaded: on success it is rendered from the response payload with the
    button enabled again, so that the Retry button is gone as soon as the
    payload's media status is no longer unknown; on failure it is exactly
    the card that was shown before the click. *)
Theorem retry_outcome_on_the_card
        (p : Props) (env : Env) (t : TitleDetails)
        (net : HttpCall -> Outcome) (s : State) :
  title env = Some t ->
  isRetrying s = false ->
  match net (retryCall p) with
  | Fulfilled result =>
      RequestItem p env (fst (run net (retryRequest p) s))
      = CardView {| modalShown := showEditModal s;
                    seasonField := renderSeasons t p;
                    statusField := renderStatus (data result);
                    actions := renderActions env false (data result) |}
      /\ (selectedStatus (data result) <> MediaStatus.UNKNOWN ->
          forall d,
            rendered (BtnRetry d)
                     (RequestItem p env (fst (run net (retryRequest p) s)))
            = false)
  | Rejected _ =>
      RequestItem p env (fst (run net (retryRequest p) s))
      = RequestItem p env s
  end.
Proof.
  intros T F. rewrite run_retryRequest.
  destruct (net (retryCall p)) as [result|e]; cbn [fst].
  - assert (V : RequestItem p env
                  {| isRetrying := false;
                     showEditModal := showEditModal s;
                     requestData := Some (data result);
                     trace := (trace s ++ [Http (retryCall p);
                                           RevalidateRecord])%list |}
                = CardView {| modalShown := showEditModal s;
                              seasonField := renderSeasons t p;
                              statusField := renderStatus (data result);
                              actions := renderActions env false (data result) |})
      by (unfold RequestItem; rewrite T; cbn [requestData];
          destruct (error env); reflexivity).
    split; [exact V|].
    intros U d. rewrite V. cbn [rendered actions].
    destruct (in_dec ActionButton_eq_dec (BtnRetry d)
                     (renderActions env false (data result))) as [H|H];
      [|reflexivity].
    exfalso. apply in_renderActions in H.
    destruct H as [[H _]|[[_ E]|[[_ [E|E]]|[[_ E]|[_ E]]]]];
      try discriminate.
    bools. contradiction.
  - apply RequestItem_ext; cbn [isRetrying showEditModal requestData];
      congruence.
Qed.

Lemma retry_outcome_on_the_card_witness :
  RequestItem {| request := filmRequest MediaRequestStatus.APPROVED |} asAnn
    (fst (run offline
              (retryRequest {| request := filmRequest MediaRequestStatus.APPROVED |})
              (initial {| request := filmRequest MediaRequestStatus.APPROVED |})))
  = RequestItem {| request := filmRequest MediaRequestStatus.APPROVED |} asAnn
      (initial {| request := filmRequest MediaRequestStatus.APPROVED |}).
Proof.
  apply (retry_outcome_on_the_card
           {| request := filmRequest MediaRequestStatus.APPROVED |} asAnn
           fightClub offline
           (initial {| request := filmRequest MediaRequestStatus.APPROVED |})
           eq_refl eq_refl).
Defined.

(** X11. The edit modal: the Edit control opens it and calls nothing;
    cancelling a modal opened from a closed state puts the state back
    exactly as it was; completing it closes it as well and asks once for
    the list, but not for the record.  The card shows the modal exactly
    when the switch is on. *)
Theorem edit_modal_round_trip
        (p : Props) (env : Env) (net : HttpCall -> Outcome) (s : State) :
  showEditModal s = false ->
  showEditModal (fst (run net (onClick p BtnEdit) s)) = true
  /\ trace (fst (run net (onClick p BtnEdit) s)) = trace s
  /\ fst (run net modalOnCancel (fst (run net (onClick p BtnEdit) s))) = s
  /\ fst (run net modalOnComplete (fst (run net (onClick p BtnEdit) s)))
     = emits [RevalidateList] s
  /\ match RequestItem p env (fst (run net (onClick p BtnEdit) s)) with
     | CardView c => modalShown c = true
     | _ => True
     end.
Proof.
  intros M. destruct s as [r m d tr]. cbn [showEditModal] in M. subst m.
  split; [reflexivity|]. split; [reflexivity|]. split; [reflexivity|].
  split; [reflexivity|].
  unfold RequestItem.
  cbn [onClick run perform fst isRetrying showEditModal requestData trace].
  destruct (title env), (error env), d; exact I || reflexivity.
Qed.

Lemma edit_modal_round_trip_witness :
  fst (run offline modalOnCancel
           (fst (run offline
                     (onClick {| request := showRequest |} BtnEdit)
                     (initial {| request := showRequest |}))))
  = initial {| request := showRequest |}.
Proof.
  apply (edit_modal_round_trip {| request := showRequest |} asBob offline
                               (initial {| request := showRequest |})).
  reflexivity.
Defined.

(* ===================================================================== *)
(** ** The action column as a whole *)
(* ===================================================================== *)

(** X12. A caller without the manage-requests permission is offered
    nothing but Edit and Cancel, and only on a pending request of their
    own; whenever such a caller is offered anything, Cancel is part of
    it. *)
Theorem non_manager_controls
        (env : Env) (retrying : bool) (rd : MediaRequest.t) (b : ActionButton) :
  hasPermission env Permission.MANAGE_REQUESTS = false ->
  In b (renderActions env retrying rd) ->
  (b = BtnEdit \/ b = BtnCancel)
  /\ isPending rd
  /\ callerIsRequester env rd
  /\ In BtnCancel (renderActions env retrying rd).
Proof.
  unfold isPending. intros M H.
  assert (K : (b = BtnEdit \/ b = BtnCancel)
              /\ MediaRequest.status rd = MediaRequestStatus.PENDING
              /\ callerIsRequester env rd).
  { apply in_renderActions in H. rewrite M in H.
    rewrite !andb_false_r in H. cbn [orb negb] in H.
    destruct H as [[H _]|[[H _]|[[H _]|[[H E]|[H E]]]]];
      try discriminate; bools; auto. }
  destruct K as (B & P & R).
  split; [exact B|]. split; [exact P|]. split; [exact R|].
  apply in_renderActions. do 4 right.
  apply isStatus_true in P. apply isRequester_true in R.
  rewrite P, M, R. auto.
Qed.

Lemma non_manager_controls_witness :
  (BtnEdit = BtnEdit \/ BtnEdit = BtnCancel)
  /\ isPending showRequest
  /\ callerIsRequester asBob showRequest
  /\ In BtnCancel (renderActions asBob false showRequest).
Proof.
  apply (non_manager_controls asBob false showRequest BtnEdit).
  - reflexivity.
  - left. reflexivity.
Defined.

(** Whether a control is in the column, as one boolean per control. *)
Lemma shown_iff env retrying rd b :
  In b (renderActions env retrying rd) <->
  match b with
  | BtnRetry d =>
      Bool.eqb d retrying
      && (isUnknown (selectedStatus rd)
          && negb (isStatus rd MediaRequestStatus.DECLINED)
          && hasPermission env Permission.MANAGE_REQUESTS)
  | BtnDelete =>
      negb (isStatus rd MediaRequestStatus.PENDING)
      && hasPermission env Permission.MANAGE_REQUESTS
  | BtnApprove | BtnDecline =>
      isStatus rd MediaRequestStatus.PENDING
      && hasPermission env Permission.MANAGE_REQUESTS
  | BtnEdit =>
      isStatus rd MediaRequestStatus.PENDING
      && (hasPermission env Permission.MANAGE_REQUESTS
          || (isRequester env rd
              && (isTv rd || hasPermission env Permission.REQUEST_ADVANCED)))
  | BtnCancel =>
      isStatus rd MediaRequestStatus.PENDING
      && negb (hasPermission env Permission.MANAGE_REQUESTS)
      && isRequester env rd
  end = true.
Proof.
  rewrite in_renderActions. destruct b.
  - split.
    + intros [[H E]|[[_ E]|[[_ [E|E]]|[[_ E]|[_ E]]]]]; try discriminate.
      injection E as ->. rewrite H, Bool.eqb_reflx. reflexivity.
    + intros H. apply andb_true_iff in H. destruct H as [D H].
      apply Bool.eqb_prop in D. subst. left. auto.
  - split.
    + intros [[_ E]|[[H _]|[[_ [E|E]]|[[_ E]|[_ E]]]]]; try discriminate.
      exact H.
    + intros H. right. left. auto.
  - split.
    + intros [[_ E]|[[_ E]|[[H _]|[[_ E]|[_ E]]]]]; try discriminate.
      exact H.
    + intros H. do 2 right. left. auto.
  - split.
    + intros [[_ E]|[[_ E]|[[H _]|[[_ E]|[_ E]]]]]; try discriminate.
      exact H.
    + intros H. do 2 right. left. auto.
  - split.
    + intros [[_ E]|[[_ E]|[[_ [E|E]]|[[H _]|[_ E]]]]]; try discriminate.
      exact H.
    + intros H. do 3 right. left. auto.
  - split.
    + intros [[_ E]|[[_ E]|[[_ [E|E]]|[[_ E]|[H _]]]]]; try discriminate.
      exact H.
    + intros H. do 4 right. auto.
Qed.

(** X13. A caller with the manage-requests permission always has a way
    to act on a request: the column holds either Delete or the pair
    Approve and Decline, never both and never neither; Edit comes exactly
    with the pair, and Cancel is never offered.  For any caller, Approve
    and Decline come together. *)
Theorem manager_controls
        (env : Env) (retrying : bool) (rd : MediaRequest.t) :
  (In BtnApprove (renderActions env retrying rd) <->
   In BtnDecline (renderActions env retrying rd))
  /\ (canManage env ->
      (In BtnDelete (renderActions env retrying rd) <->
       ~ In BtnApprove (renderActions env retrying rd))
      /\ (In BtnEdit (renderActions env retrying rd) <->
          In BtnApprove (renderActions env retrying rd))
      /\ ~ In BtnCancel (renderActions env retrying rd)
      /\ renderActions env retrying rd <> []).
Proof.
  split; [rewrite !shown_iff; reflexivity|].
  unfold canManage. intros M.
  assert (N : renderActions env retrying rd <> []).
  { destruct (isStatus rd MediaRequestStatus.PENDING) eqn:P.
    - assert (H : In BtnApprove (renderActions env retrying rd))
        by (apply shown_iff; rewrite P, M; reflexivity).
      intros E. rewrite E in H. destruct H.
    - assert (H : In BtnDelete (renderActions env retrying rd))
        by (apply shown_iff; rewrite P, M; reflexivity).
      intros E. rewrite E in H. destruct H. }
  rewrite !shown_iff, M.
  destruct (isStatus rd MediaRequestStatus.PENDING);
    cbn [andb orb negb]; repeat split; try discriminate; try exact N;
    intros H; try discriminate H; try reflexivity.
  exfalso. apply H. reflexivity.
Qed.

Lemma manager_controls_witness :
  In BtnDelete (renderActions asAnn false (filmRequest MediaRequestStatus.APPROVED))
  /\ renderActions asAnn false (filmRequest MediaRequestStatus.APPROVED) <> [].
Proof.
  destruct (manager_controls
              asAnn false (filmRequest MediaRequestStatus.APPROVED))
    as [_ K].
  destruct (K eq_refl) as (D & _ & _ & N).
  split; [|exact N].
  apply D. simpl. intros H.
  repeat (destruct H as [H|H]; [discriminate|]). destruct H.
Defined.

(** X14. The controls of the action column always come in the one order
    Retry, Delete, Approve, Decline, Edit, Cancel, each at most once, and
    there are never more than four of them. *)
Theorem actions_in_order
        (env : Env) (retrying : bool) (rd : MediaRequest.t) :
  StronglySorted Nat.lt (List.map rank (renderActions env retrying rd))
  /\ NoDup (renderActions env retrying rd)
  /\ (List.length (renderActions env retrying rd) <= 4)%nat.
Proof.
  unfold renderActions. cbv zeta.
  destruct (hasPermission env Permission.MANAGE_REQUESTS);
    destruct (isStatus rd MediaRequestStatus.PENDING);
    destruct (isUnknown (selectedStatus rd)
              && negb (isStatus rd MediaRequestStatus.DECLINED));
    destruct (isRequester env rd
              && (isTv rd || hasPermission env Permission.REQUEST_ADVANCED));
    destruct (isRequester env rd);
    cbn [andb orb negb when app List.map rank List.length];
    (split; [repeat constructor; lia|]);
    (split; [|lia]);
    repeat constructor; cbn [In]; intros H;
    repeat (destruct H as [H|H]; [discriminate|]); destruct H.
Qed.

Lemma in_when_single {A : Type} (c : bool) (x y : A) :
  In y (when c [x]) <-> c = true /\ x = y.
Proof.
  rewrite in_when. simpl. tauto.
Qed.

(** X15. The Retry button goes with the failed badge: it is in the column
    exactly when the status field shows the failed badge and the caller
    has the manage-requests permission.  The column of a declined request
    holds Delete alone for such a caller and is empty for everybody
    else. *)
Theorem retry_goes_with_failed_badge
        (env : Env) (retrying : bool) (rd : MediaRequest.t) :
  ((exists d, In (BtnRetry d) (renderActions env retrying rd)) <->
   canManage env /\ exists href, renderStatus rd = FailedBadge href)
  /\ (isDeclined rd ->
      renderStatus rd = DeclinedBadge
      /\ renderActions env retrying rd
         = when (hasPermission env Permission.MANAGE_REQUESTS) [BtnDelete]).
Proof.
  unfold canManage, isDeclined. split.
  - unfold renderStatus. split.
    + intros [d H]. apply shown_iff in H.
      apply andb_true_iff in H. destruct H as [_ H].
      apply andb_true_iff in H. destruct H as [H M].
      apply andb_true_iff in H. destruct H as [U D].
      apply negb_true_iff in D.
      split; [exact M|]. rewrite D, U. eexists. reflexivity.
    + intros [M [href H]]. exists retrying. apply shown_iff.
      rewrite Bool.eqb_reflx, M.
      destruct (isStatus rd MediaRequestStatus.DECLINED); [discriminate|].
      destruct (isUnknown (selectedStatus rd)); [reflexivity|discriminate].
  - intros D. unfold renderStatus, renderActions. cbv zeta.
    assert (P : isStatus rd MediaRequestStatus.PENDING = false)
      by (apply isStatus_false; rewrite D; discriminate).
    apply isStatus_true in D. rewrite D, P.
    split; [reflexivity|].
    rewrite andb_false_r. cbn [negb andb when app].
    destruct (hasPermission env Permission.MANAGE_REQUESTS); reflexivity.
Qed.

Lemma retry_goes_with_failed_badge_witness :
  renderStatus (filmRequest MediaRequestStatus.DECLINED) = DeclinedBadge
  /\ renderActions asAnn false (filmRequest MediaRequestStatus.DECLINED)
     = when (hasPermission asAnn Permission.MANAGE_REQUESTS) [BtnDelete].
Proof.
  apply (proj2 (retry_goes_with_failed_badge
                  asAnn false (filmRequest MediaRequestStatus.DECLINED))).
  reflexivity.
Defined.

(** X16. The card of a 4K request is rendered from the 4K fields of the
    media alone, and that of a standard request from the standard fields
    alone: whatever status, download list and playback address the other
    variant is given, the status field and the action column stay the
    same. *)
Theorem other_variant_is_ignored
        (env : Env) (retrying : bool) (rd : MediaRequest.t)
        (st : MediaStatus.t) (ds : option (list DownloadingItem))
        (mu : option string) :
  renderStatus (if MediaRequest.is4k rd then withStandard rd st ds mu
                else with4k rd st ds mu)
  = renderStatus rd
  /\ renderActions env retrying
                   (if MediaRequest.is4k rd then withStandard rd st ds mu
                    else with4k rd st ds mu)
     = renderActions env retrying rd.
Proof.
  destruct rd as [id ty status k m seasons by_ mod_].
  destruct m as [mid tmdb s s4 d d4 u u4].
  destruct k; split; reflexivity.
Qed.

(** X17. The season field is left out exactly for a film or an empty list
    of requested seasons.  When it is shown, its label is the singular
    [Season] exactly when one season is requested and the title does not
    have exactly one regular season; a request for the only regular season
    of a show reads [Seasons] next to the All badge. *)
Theorem season_label_singular (t : TitleDetails) (p : Props) :
  match renderSeasons t p with
  | None => isMovie t = true \/ MediaRequest.seasons (request p) = []
  | Some f =>
      exists tv,
        t = Tv tv
        /\ MediaRequest.seasons (request p) <> []
        /\ (seasonLabel f = "Season" <->
            List.length (MediaRequest.seasons (request p)) = 1%nat
            /\ List.length (nonSpecials tv) <> 1%nat)
        /\ (seasonBadges f = AllBadge -> seasonLabel f = "Seasons")
  end.
Proof.
  unfold renderSeasons. destruct t as [m|tv]; [left; reflexivity|].
  destruct (MediaRequest.seasons (request p)) as [|r rs] eqn:E;
    [right; reflexivity|].
  change (Nat.ltb 0 (List.length (r :: rs))) with true. cbv iota.
  exists tv. split; [reflexivity|]. split; [discriminate|].
  cbn [seasonLabel seasonBadges seasonCount].
  destruct (Nat.eqb_spec (List.length (nonSpecials tv))
                         (List.length (r :: rs))) as [Q|Q].
  - split; [|reflexivity]. cbn [messages.seasons Nat.eqb]. split.
    + discriminate.
    + intros [L N]. congruence.
  - split; [|discriminate]. unfold messages.seasons.
    destruct (Nat.eqb_spec (List.length (r :: rs)) 1) as [L|L]; split.
    + intros _. split; [exact L|congruence].
    + reflexivity.
    + discriminate.
    + intros [L' _]. contradiction.
Qed.

(* ===================================================================== *)
(** ** The mounted card, whatever happens *)
(* ===================================================================== *)

Lemma rendered_in_column p env s b :
  rendered b (RequestItem p env s) = true ->
  exists rd, In b (renderActions env (isRetrying s) rd).
Proof.
  unfold rendered, RequestItem.
  destruct (title env) as [t|], (error env), (requestData s) as [rd|];
    try discriminate; cbn [actions];
    (destruct (in_dec ActionButton_eq_dec b
                      (renderActions env (isRetrying s) rd)) as [H|H];
     [|discriminate]);
    intros _; exists rd; exact H.
Qed.

Section WithoutManage.

Variable dispatches : bool -> bool.
Variable p : Props.
Variable env : Env.
Hypothesis no_manage : hasPermission env Permission.MANAGE_REQUESTS = false.

Lemma step_quiet l ev : quiet p l -> quiet p (step dispatches p env l ev).
Proof.
  intros [HT HF]. destruct ev as [b|i o|rd]; cbn [step].
  - destruct (rendered b (RequestItem p env (now l))) eqn:R;
      [|split; assumption].
    destruct (dispatches (disabledOf b)); [|split; assumption].
    cbn [andb]. apply rendered_in_column in R. destruct R as [rd R].
    apply shown_iff in R. rewrite no_manage in R.
    destruct b; rewrite ?andb_false_r in R; try discriminate R;
      unfold launch; cbn [onClick exec perform deleteRequest await].
    + split; [exact HT|exact HF].
    + split; cbn [now inflight emits trace].
      * apply Forall_app. split; [exact HT|]. repeat constructor.
      * apply Forall_app. split; [exact HF|].
        constructor; [|constructor]. exists (now l). reflexivity.
  - destruct (nth_error (inflight l) i) as [[c k]|] eqn:N;
      [|split; assumption].
    assert (exists s0, snd (exec (deleteRequest p) s0) = Suspended c k)
      as [s0 Hk].
    { apply nth_error_In in N.
      exact (proj1 (Forall_forall _ _) HF _ N). }
    cbn [deleteRequest await exec snd] in Hk. injection Hk as _ <-.
    unfold launch. destruct o as [r|e]; cbn [exec perform]; split;
      cbn [now inflight emits trace];
      try (apply Forall_without_nth; exact HF);
      try exact HT.
    apply Forall_app. split; [exact HT|]. repeat constructor.
  - split; [exact HT|exact HF].
Qed.

(** X19. For a caller without the manage-requests permission the card
    never sends an approve, decline or retry: whatever is clicked and
    however the calls settle, every HTTP call the card has issued is the
    DELETE of its own request. *)
Theorem non_manager_only_deletes (evs : list Event) (c : HttpCall) :
  In (Http c) (trace (now (play dispatches p env evs))) ->
  c = {| method := DELETE;
         url := "/api/v1/request/" ++ num (MediaRequest.id (request p)) |}.
Proof.
  assert (Q : quiet p (play dispatches p env evs)).
  { unfold play.
    assert (H : quiet p (mount p)) by (split; constructor).
    revert H. generalize (mount p).
    induction evs as [|ev evs IH]; intros l H; cbn [fold_left].
    - exact H.
    - apply IH. apply step_quiet. exact H. }
  destruct Q as [HT _]. intros H.
  exact (proj1 (Forall_forall _ _) HT _ H).
Qed.

End WithoutManage.

Lemma non_manager_only_deletes_witness :
  In (Http (deleteCall {| request := showRequest |}))
     (trace (now (play negb {| request := showRequest |} asBob
                       [Click BtnApprove; Click BtnCancel])))
  /\ deleteCall {| request := showRequest |}
     = {| method := DELETE; url := "/api/v1/request/13" |}.
Proof.
  assert (H : In (Http (deleteCall {| request := showRequest |}))
                 (trace (now (play negb {| request := showRequest |} asBob
                                   [Click BtnApprove; Click BtnCancel]))))
    by (vm_compute; left; reflexivity).
  split; [exact H|].
  rewrite (non_manager_only_deletes
             negb {| request := showRequest |} asBob eq_refl
             [Click BtnApprove; Click BtnCancel] _ H).
  vm_compute. reflexivity.
Defined.
